(** * EmulatedGenyCameraDevice: lifecycle state machine and frame acquisition

    A shallow embedding of
    [vbox86/camera/camera_vbox86/EmulatedGenyCameraDevice.cpp]:
    the object's fields are a record, every member function is a
    computation in a small state monad over a [World] (the object, the
    arrays it allocated, the state of its collaborators, and the chronological
    trace of every call that leaves the object).

    The collaborators of the class (the [GenyClient] session, the base class
    [EmulatedCameraDevice], the worker thread, the allocator, the clock) are
    not part of the translated file.  They are an interface ([Collaborators])
    over an arbitrary environment state, so every theorem holds for every
    behaviour of theirs; closed examples run against the scripted instance
    [script_env].

    The model is sequential: a member function runs as one step.
    [getDeviceInfo], [connectDevice], [disconnectDevice], [startDevice] and
    [stopDevice] hold [mObjectLock] for their whole body; [Initialize],
    [getCurrentPreviewFrame] and [inWorkerThread] take no lock, and what
    another thread does in the middle of one of them is not modelled.
    Logging is left out. *)

From Stdlib Require Import ZArith Lia Sorted.
From Stdlib Require Import Floats.PrimFloat.
From stdpp Require Import base option list gmap strings.

Open Scope Z_scope.

(** ** Status codes *)

(** [status_t] is a 32-bit [int]; the codes below are the ones of
    [utils/Errors.h], [errno.h] and [system/camera.h]. *)
Definition status_t := Z.

Definition NO_ERROR : status_t := 0.
Definition ENOMEM : status_t := 12.
Definition EINVAL : status_t := 22.
Definition CAMERA_ERROR_SERVER_DIED : Z := 100.
Definition SYSTEM_TIME_MONOTONIC : Z := 1.

(** ** Data model *)

(** Modelled from the spec: the enum [EmulatedCameraDeviceState] lives in
    EmulatedCameraDevice.h, which is not under src/.  The source names
    [ECDS_INITIALIZED], [ECDS_CONNECTED] and [ECDS_STARTED];
    [ECDS_CONSTRUCTED] is the spec's Uninitialized. *)
Inductive EmulatedCameraDeviceState :=
| ECDS_CONSTRUCTED
| ECDS_INITIALIZED
| ECDS_CONNECTED
| ECDS_STARTED.

#[global] Instance EmulatedCameraDeviceState_eq_dec : EqDecision EmulatedCameraDeviceState.
Proof. solve_decision. Defined.

(** Modelled from the spec: [WorkerThread::SelectRes] is declared in
    EmulatedCameraDevice.h (not under src/).  The source names [EXIT_THREAD]
    only and treats every other value alike; the spec names the timeout. *)
Inductive SelectRes := TIMEOUT | READY | EXIT_THREAD | ERROR.

#[global] Instance SelectRes_eq_dec : EqDecision SelectRes.
Proof. solve_decision. Defined.

(** Addresses of the [uint32_t] arrays this class allocates; [None] is NULL. *)
Abbreviation addr := positive.
Abbreviation ptr := (option addr).

(** The arrays allocated by [new uint32_t[n]], as their [4 * n] bytes. *)
Abbreviation Heap := (gmap addr (list Byte.byte)).

(** The frame geometry kept by the base class: the fields that
    [commonStartDevice] and [commonStopDevice] maintain.  [mCurrentFrame] is
    the base class's own frame buffer, kept as its opaque address. *)
Record FrameInfo := mkFrameInfo {
  mFrameWidth : Z;
  mFrameHeight : Z;
  mPixelFormat : Z;
  mTotalPixels : Z;
  mFrameBufferSize : Z;
  mCurrentFrame : Z
}.

(** The object: the base class's fields this file reads or writes, then the
    two fields of [EmulatedGenyCameraDevice] itself.  [mGenyClient] is part of
    the environment. *)
Record Device := mkDevice {
  mState : EmulatedCameraDeviceState;
  mFrame : FrameInfo;
  mCurFrameTimestamp : Z;
  mWhiteBalanceScale : float * float * float;
  mExposureCompensation : float;
  mPreviewFrame : ptr;
  mDeviceName : string
}.

Definition set_mState (s : EmulatedCameraDeviceState) (d : Device) : Device :=
  mkDevice s (mFrame d) (mCurFrameTimestamp d) (mWhiteBalanceScale d)
           (mExposureCompensation d) (mPreviewFrame d) (mDeviceName d).

Definition set_mFrame (f : FrameInfo) (d : Device) : Device :=
  mkDevice (mState d) f (mCurFrameTimestamp d) (mWhiteBalanceScale d)
           (mExposureCompensation d) (mPreviewFrame d) (mDeviceName d).

Definition set_mCurFrameTimestamp (t : Z) (d : Device) : Device :=
  mkDevice (mState d) (mFrame d) t (mWhiteBalanceScale d)
           (mExposureCompensation d) (mPreviewFrame d) (mDeviceName d).

Definition set_mPreviewFrame (p : ptr) (d : Device) : Device :=
  mkDevice (mState d) (mFrame d) (mCurFrameTimestamp d) (mWhiteBalanceScale d)
           (mExposureCompensation d) p (mDeviceName d).

Definition set_mDeviceName (n : string) (d : Device) : Device :=
  mkDevice (mState d) (mFrame d) (mCurFrameTimestamp d) (mWhiteBalanceScale d)
           (mExposureCompensation d) (mPreviewFrame d) n.

(** ** Trace *)

(** One event per call that leaves the object, with the arguments passed and
    the result obtained. *)
Inductive Event :=
| Ev_connectClient (port : Z) (res : status_t)
| Ev_queryConnect (res : status_t)
| Ev_queryDisconnect (res : status_t)
| Ev_queryInfo (res : status_t)
| Ev_queryStart (pix_fmt width height : Z) (res : status_t)
| Ev_queryStop (res : status_t)
| Ev_queryFrame (vframe : Z) (pframe : ptr) (vframe_size pframe_size : Z)
                (r_scale g_scale b_scale exposure_comp : float) (res : status_t)
| Ev_base_Initialize (res : status_t)
| Ev_commonStartDevice (width height pix_fmt : Z) (res : status_t)
| Ev_commonStopDevice
| Ev_base_getCurrentPreviewFrame (res : status_t)
| Ev_new (count : Z) (p : ptr)
| Ev_delete (a : addr)
| Ev_memcpy (src : addr) (n : Z)
| Ev_Select (fd timeout : Z) (res : SelectRes)
| Ev_systemTime (clock : Z) (now : Z)
| Ev_onNextFrameAvailable (frame : Z) (timestamp : Z)
| Ev_onCameraDeviceError (err : Z).

(** ** Collaborators *)

(** Everything the translated file calls but does not define, as state
    transformers of an environment [Env].

    - the [GenyClient] member functions ([queryFrame] also yields the bytes it
      wrote through the preview pointer);
    - Modelled from the spec: the base class's [commonStartDevice],
      [commonStopDevice] and [getCurrentPreviewFrame] (EmulatedCameraDevice.cpp
      is not under src/).  They are the "common start/stop bookkeeping" and
      the "generic base behavior" of the spec.  The spec makes the lifecycle
      transitions the only mutators of the device state, so the bookkeeping is
      given the frame geometry only;
    - [base_Initialize_res]: whether the generic base initialisation succeeds;
    - [new_array n]: [new uint32_t[n]], NULL ([None]) or the uninitialised
      contents of the new array;
    - [Select] of the worker thread and [systemTime];
    - [mEmulatedFPS], a constant of EmulatedGenyCameraDevice.h. *)
Class Collaborators (Env : Type) := {
  connectClient : Z → Env → status_t * Env;
  queryConnect : Env → status_t * Env;
  queryDisconnect : Env → status_t * Env;
  queryInfo : Env → (status_t * string) * Env;
  queryStart : Z → Z → Z → Env → status_t * Env;
  queryStop : Env → status_t * Env;
  queryFrame : Z → ptr → Z → Z → float → float → float → float →
               Env → (status_t * list Byte.byte) * Env;
  base_Initialize_res : Env → status_t * Env;
  commonStartDevice : Z → Z → Z → FrameInfo → Env → (status_t * FrameInfo) * Env;
  commonStopDevice : FrameInfo → Env → FrameInfo * Env;
  base_getCurrentPreviewFrame :
    EmulatedCameraDeviceState → FrameInfo → list Byte.byte →
    Env → (status_t * list Byte.byte) * Env;
  new_array : Z → Env → option (list Byte.byte) * Env;
  Select : Z → Z → Env → SelectRes * Env;
  systemTime : Z → Env → Z * Env;
  mEmulatedFPS : Z
}.

(** ** The world and its monad *)

Record World (Env : Type) := mkWorld {
  dev : Device;
  heap : Heap;
  env : Env;
  trace : list Event
}.
Arguments mkWorld {Env} _ _ _ _.
Arguments dev {Env} _.
Arguments heap {Env} _.
Arguments env {Env} _.
Arguments trace {Env} _.

Definition M (Env A : Type) : Type := World Env → A * World Env.

Definition ret {Env A} (a : A) : M Env A := λ w, (a, w).

Definition bind {Env A B} (m : M Env A) (k : A → M Env B) : M Env B :=
  λ w, let (a, w') := m w in k a w'.

Declare Scope cam_scope.
Delimit Scope cam_scope with cam.
Notation "x <- m ;; k" := (bind m (λ x, k))
  (at level 100, m at next level, right associativity) : cam_scope.
Notation "m ;; k" := (bind m (λ _, k))
  (at level 100, right associativity) : cam_scope.
Open Scope cam_scope.

Definition emit {Env} (e : Event) : M Env unit :=
  λ w, (tt, mkWorld (dev w) (heap w) (env w) (trace w ++ [e])).

Definition ask {Env A} (f : Env → A * Env) : M Env A :=
  λ w, let (a, e') := f (env w) in (a, mkWorld (dev w) (heap w) e' (trace w)).

Definition get {Env A} (f : Device → A) : M Env A := λ w, (f (dev w), w).

Definition modify {Env} (f : Device → Device) : M Env unit :=
  λ w, (tt, mkWorld (f (dev w)) (heap w) (env w) (trace w)).

Definition get_heap {Env} : M Env Heap := λ w, (heap w, w).

Definition set_heap {Env} (h : Heap) : M Env unit :=
  λ w, (tt, mkWorld (dev w) h (env w) (trace w)).

(** ** Machine arithmetic and memory primitives *)

(** Product of two [int]s, wrapped to 32 bits two's complement (what the x86
    target computes; the C++ standard leaves the overflow undefined). *)
Definition int_mul (a b : Z) : Z := (a * b + 2 ^ 31) `mod` 2 ^ 32 - 2 ^ 31.

(** Conversion of an [int] to the target's 32-bit [size_t]. *)
Definition size_t_of_int (z : Z) : Z := z `mod` 2 ^ 32.

(** [memcpy dst src n] on the bytes of the two objects: the first [n] bytes of
    [dst] become the first [n] bytes of [src].  The C function is undefined
    when either object is shorter than [n]; the model then copies what
    there is. *)
Definition memcpy (dst src : list Byte.byte) (n : nat) : list Byte.byte :=
  take n src ++ drop n dst.

(** Bytes written through a pointer to an array holding [old]: they replace
    its prefix and never extend it. *)
Definition overwrite (old written : list Byte.byte) : list Byte.byte :=
  take (length old) (written ++ drop (length written) old).

(** The heap after [written] went through the pointer [p]; nothing is
    modelled for a null or dangling pointer. *)
Definition write_through (p : ptr) (written : list Byte.byte) (h : Heap) : Heap :=
  match p with
  | Some a =>
      match h !! a with
      | Some old => <[a := overwrite old written]> h
      | None => h
      end
  | None => h
  end.

Section Device.

Context {Env : Type} `{Collaborators Env}.

(** *** Allocation *)

(** [new uint32_t[n]]: NULL, or a fresh array of [4 * n] bytes with
    unspecified contents. *)
Definition new_uint32_array (n : Z) : M Env ptr :=
  r <- ask (new_array n) ;;
  match r with
  | None => emit (Ev_new n None) ;; ret None
  | Some garbage =>
      h <- get_heap ;;
      let a := fresh (dom h) in
      set_heap (<[a := resize (Z.to_nat (4 * n)) Byte.x00 garbage]> h) ;;
      emit (Ev_new n (Some a)) ;;
      ret (Some a)
  end.

(** [delete[] p]: nothing for a null pointer. *)
Definition delete_array (p : ptr) : M Env unit :=
  match p with
  | None => ret tt
  | Some a =>
      h <- get_heap ;;
      set_heap (delete a h) ;;
      emit (Ev_delete a)
  end.

(** *** Calls to the collaborators, each recorded in the trace *)

Definition mGenyClient_connectClient (port : Z) : M Env status_t :=
  res <- ask (connectClient port) ;; emit (Ev_connectClient port res) ;; ret res.

Definition mGenyClient_queryConnect : M Env status_t :=
  res <- ask queryConnect ;; emit (Ev_queryConnect res) ;; ret res.

Definition mGenyClient_queryDisconnect : M Env status_t :=
  res <- ask queryDisconnect ;; emit (Ev_queryDisconnect res) ;; ret res.

Definition mGenyClient_queryInfo : M Env (status_t * string) :=
  r <- ask queryInfo ;; emit (Ev_queryInfo (fst r)) ;; ret r.

Definition mGenyClient_queryStart (pix_fmt width height : Z) : M Env status_t :=
  res <- ask (queryStart pix_fmt width height) ;;
  emit (Ev_queryStart pix_fmt width height res) ;;
  ret res.

Definition mGenyClient_queryStop : M Env status_t :=
  res <- ask queryStop ;; emit (Ev_queryStop res) ;; ret res.

(** [queryFrame] fills the array behind [pframe] (when there is one). *)
Definition mGenyClient_queryFrame (vframe : Z) (pframe : ptr)
    (vframe_size pframe_size : Z) (r_scale g_scale b_scale exposure_comp : float)
    : M Env status_t :=
  r <- ask (queryFrame vframe pframe vframe_size pframe_size
              r_scale g_scale b_scale exposure_comp) ;;
  h <- get_heap ;;
  set_heap (write_through pframe (snd r) h) ;;
  emit (Ev_queryFrame vframe pframe vframe_size pframe_size
          r_scale g_scale b_scale exposure_comp (fst r)) ;;
  ret (fst r).

Definition WorkerThread_Select (fd timeout : Z) : M Env SelectRes :=
  res <- ask (Select fd timeout) ;; emit (Ev_Select fd timeout res) ;; ret res.

Definition call_systemTime (clock : Z) : M Env Z :=
  now <- ask (systemTime clock) ;; emit (Ev_systemTime clock now) ;; ret now.

Definition mCameraHAL_onNextFrameAvailable (frame timestamp : Z) : M Env unit :=
  emit (Ev_onNextFrameAvailable frame timestamp).

Definition mCameraHAL_onCameraDeviceError (err : Z) : M Env unit :=
  emit (Ev_onCameraDeviceError err).

(** *** The base class *)

(** Modelled from the spec: the state predicates of the base class
    (EmulatedCameraDevice.h is not under src/), as section 4.1 uses them:
    Connect succeeds as a no-op on a Started device and Disconnect tests
    "started" after "connected", so a Started device is connected. *)
Definition isInitialized (d : Device) : bool :=
  match mState d with ECDS_CONSTRUCTED => false | _ => true end.

Definition isConnected (d : Device) : bool :=
  match mState d with ECDS_CONNECTED | ECDS_STARTED => true | _ => false end.

Definition isStarted (d : Device) : bool :=
  match mState d with ECDS_STARTED => true | _ => false end.

(** Modelled from the spec: [EmulatedCameraDevice::Initialize], the generic
    base initialisation (EmulatedCameraDevice.cpp is not under src/).
    Section 4.1: on success the state of an Uninitialized device becomes
    Initialized, and a failure leaves the state unchanged.  On a device that is
    not Uninitialized it leaves the state unchanged as well; the status it
    returns there is the environment's. *)
Definition EmulatedCameraDevice_Initialize : M Env status_t :=
  s <- get mState ;;
  res <- ask base_Initialize_res ;;
  emit (Ev_base_Initialize res) ;;
  if (res =? NO_ERROR) && bool_decide (s = ECDS_CONSTRUCTED)
  then modify (set_mState ECDS_INITIALIZED) ;; ret res
  else ret res.

Definition EmulatedCameraDevice_commonStartDevice (width height pix_fmt : Z)
    : M Env status_t :=
  f <- get mFrame ;;
  r <- ask (commonStartDevice width height pix_fmt f) ;;
  modify (set_mFrame (snd r)) ;;
  emit (Ev_commonStartDevice width height pix_fmt (fst r)) ;;
  ret (fst r).

Definition EmulatedCameraDevice_commonStopDevice : M Env unit :=
  f <- get mFrame ;;
  f' <- ask (commonStopDevice f) ;;
  modify (set_mFrame f') ;;
  emit Ev_commonStopDevice.

Definition EmulatedCameraDevice_getCurrentPreviewFrame (buffer : list Byte.byte)
    : M Env (status_t * list Byte.byte) :=
  d <- get id ;;
  r <- ask (base_getCurrentPreviewFrame (mState d) (mFrame d) buffer) ;;
  emit (Ev_base_getCurrentPreviewFrame (fst r)) ;;
  ret r.

(** *** EmulatedGenyCameraDevice *)

(** The constructor leaves [mPreviewFrame] NULL; the base constructor leaves
    the device Uninitialized. *)
Definition constructed (d : Device) : Prop :=
  mState d = ECDS_CONSTRUCTED ∧ mPreviewFrame d = None.

Definition destructor : M Env unit :=
  p <- get mPreviewFrame ;;
  match p with
  | Some _ => delete_array p
  | None => ret tt
  end.

Definition Initialize (device_name : string) (local_srv_port : Z) : M Env status_t :=
  res <- mGenyClient_connectClient local_srv_port ;;
  if negb (res =? NO_ERROR) then ret res else
  res <- EmulatedCameraDevice_Initialize ;;
  (if res =? NO_ERROR
   then modify (set_mDeviceName device_name)
   else (mGenyClient_queryDisconnect ;; ret tt)) ;;
  ret res.

(** The out-parameter [*p_info_str] is the second component: [None] when the
    function left it untouched. *)
Definition getDeviceInfo : M Env (status_t * option string) :=
  init <- get isInitialized ;;
  if negb init then ret (EINVAL, None) else
  r <- mGenyClient_queryInfo ;;
  ret (fst r, Some (snd r)).

Definition connectDevice : M Env status_t :=
  init <- get isInitialized ;;
  if negb init then ret EINVAL else
  conn <- get isConnected ;;
  if conn then ret NO_ERROR else
  res <- mGenyClient_queryConnect ;;
  (if res =? NO_ERROR then modify (set_mState ECDS_CONNECTED) else ret tt) ;;
  ret res.

Definition disconnectDevice : M Env status_t :=
  conn <- get isConnected ;;
  if negb conn then ret NO_ERROR else
  started <- get isStarted ;;
  if started then ret EINVAL else
  res <- mGenyClient_queryDisconnect ;;
  (if res =? NO_ERROR then modify (set_mState ECDS_INITIALIZED) else ret tt) ;;
  ret res.

Definition startDevice (width height pix_fmt : Z) : M Env status_t :=
  conn <- get isConnected ;;
  if negb conn then ret EINVAL else
  started <- get isStarted ;;
  if started then ret NO_ERROR else
  res <- EmulatedCameraDevice_commonStartDevice width height pix_fmt ;;
  if negb (res =? NO_ERROR) then ret res else
  n <- get (λ d, mTotalPixels (mFrame d)) ;;
  p <- new_uint32_array n ;;
  modify (set_mPreviewFrame p) ;;
  match p with
  | None => ret ENOMEM
  | Some _ =>
      f <- get mFrame ;;
      res <- mGenyClient_queryStart (mPixelFormat f) (mFrameWidth f) (mFrameHeight f) ;;
      (if res =? NO_ERROR then modify (set_mState ECDS_STARTED) else ret tt) ;;
      ret res
  end.

Definition stopDevice : M Env status_t :=
  started <- get isStarted ;;
  if negb started then ret NO_ERROR else
  res <- mGenyClient_queryStop ;;
  (if res =? NO_ERROR then
     p <- get mPreviewFrame ;;
     match p with
     | None => delete_array p ;; modify (set_mPreviewFrame None)
     | Some _ => ret tt
     end ;;
     EmulatedCameraDevice_commonStopDevice ;;
     modify (set_mState ECDS_CONNECTED)
   else ret tt) ;;
  ret res.

Definition getCurrentPreviewFrame (buffer : list Byte.byte)
    : M Env (status_t * list Byte.byte) :=
  p <- get mPreviewFrame ;;
  match p with
  | Some a =>
      n <- get (λ d, size_t_of_int (int_mul (mTotalPixels (mFrame d)) 4)) ;;
      h <- get_heap ;;
      emit (Ev_memcpy a n) ;;
      ret (0, memcpy buffer (default [] (h !! a)) (Z.to_nat n))
  | None => EmulatedCameraDevice_getCurrentPreviewFrame buffer
  end.

(** One pass of the worker thread.  [1000000 / mEmulatedFPS] is the
    truncating division of two [int]s. *)
Definition inWorkerThread : M Env bool :=
  res <- WorkerThread_Select (-1) (1000000 ÷ mEmulatedFPS) ;;
  if bool_decide (res = EXIT_THREAD) then ret false else
  d <- get id ;;
  query_res <- mGenyClient_queryFrame
                 (mCurrentFrame (mFrame d)) (mPreviewFrame d)
                 (mFrameBufferSize (mFrame d))
                 (size_t_of_int (int_mul (mTotalPixels (mFrame d)) 4))
                 (mWhiteBalanceScale d).1.1 (mWhiteBalanceScale d).1.2
                 (mWhiteBalanceScale d).2 (mExposureCompensation d) ;;
  if query_res =? NO_ERROR then
    now <- call_systemTime SYSTEM_TIME_MONOTONIC ;;
    modify (set_mCurFrameTimestamp now) ;;
    d <- get id ;;
    mCameraHAL_onNextFrameAvailable (mCurrentFrame (mFrame d)) (mCurFrameTimestamp d) ;;
    ret true
  else
    mCameraHAL_onCameraDeviceError CAMERA_ERROR_SERVER_DIED ;;
    ret false.

End Device.

(** ** Sequences of calls *)

(** The five lifecycle calls of section 4.1. *)
Inductive Call :=
| Call_Initialize (device_name : string) (local_srv_port : Z)
| Call_Connect
| Call_Disconnect
| Call_Start (width height pix_fmt : Z)
| Call_Stop.

(** Every entry point of the object short of its destructor: the lifecycle
    calls, the two queries, and one pass of the worker thread. *)
Inductive Op :=
| Op_call (c : Call)
| Op_getDeviceInfo
| Op_getCurrentPreviewFrame (buffer : list Byte.byte)
| Op_inWorkerThread.

Section Runs.

Context {Env : Type} `{Collaborators Env}.

Definition call (c : Call) : M Env status_t :=
  match c with
  | Call_Initialize device_name local_srv_port => Initialize device_name local_srv_port
  | Call_Connect => connectDevice
  | Call_Disconnect => disconnectDevice
  | Call_Start width height pix_fmt => startDevice width height pix_fmt
  | Call_Stop => stopDevice
  end.

Fixpoint calls (cs : list Call) : M Env (list status_t) :=
  match cs with
  | [] => ret []
  | c :: cs' => r <- call c ;; rs <- calls cs' ;; ret (r :: rs)
  end.

Definition exec (o : Op) : M Env unit :=
  match o with
  | Op_call c => call c ;; ret tt
  | Op_getDeviceInfo => getDeviceInfo ;; ret tt
  | Op_getCurrentPreviewFrame buffer => getCurrentPreviewFrame buffer ;; ret tt
  | Op_inWorkerThread => inWorkerThread ;; ret tt
  end.

Fixpoint execs (os : list Op) : M Env unit :=
  match os with
  | [] => ret tt
  | o :: os' => exec o ;; execs os'
  end.

(** The worlds an object can be in: some sequence of entry points after
    construction.  The arrays of other owners may populate the heap. *)
Definition reachable (w : World Env) : Prop :=
  ∃ w0 os, constructed (dev w0) ∧ snd (execs os w0) = w.

(** Modelled from the spec: the acquisition loop of the worker thread
    (EmulatedCameraDevice.cpp is not under src/) runs [inWorkerThread] again
    as long as it returns [true] ("loop continues") and ends when it returns
    [false] ("the loop exits").  [threadLoop n] runs at most [n] passes; its
    result tells whether the loop has exited. *)
Fixpoint threadLoop (n : nat) : M Env bool :=
  match n with
  | O => ret false
  | S n' => again <- inWorkerThread ;; if again then threadLoop n' else ret true
  end.

End Runs.

(** ** A scripted environment *)

(** The answers of the collaborators, consumed in call order; an exhausted
    script answers 0 (success, timeout, time zero). *)
Definition Script := list Z.

Definition pop (s : Script) : Z * Script :=
  match s with
  | [] => (0, [])
  | x :: s' => (x, s')
  end.

Definition SelectRes_of_Z (z : Z) : SelectRes :=
  if z =? 0 then TIMEOUT else if z =? 1 then READY
  else if z =? 2 then EXIT_THREAD else ERROR.

Definition byte_of_Z (z : Z) : Byte.byte :=
  default Byte.x00 (Byte.of_N (Z.to_N (z `mod` 256))).

(** The scripted base class computes the geometry of a 4-byte pixel format and
    clears it again on stop; a scripted remote fills the preview with the byte
    that follows its status in the script. *)
#[global] Instance script_env : Collaborators Script := {|
  connectClient _ := pop;
  queryConnect := pop;
  queryDisconnect := pop;
  queryInfo s := let (r, s') := pop s in ((r, "geny"%string), s');
  queryStart _ _ _ := pop;
  queryStop := pop;
  queryFrame _ _ _ pframe_size _ _ _ _ s :=
    let (r, s') := pop s in
    let (b, s'') := pop s' in
    ((r, replicate (Z.to_nat pframe_size) (byte_of_Z b)), s'');
  base_Initialize_res := pop;
  commonStartDevice width height pix_fmt f s :=
    let (r, s') := pop s in
    if r =? 0
    then ((r, mkFrameInfo width height pix_fmt (width * height)
                          (width * height * 4) 4096), s')
    else ((r, f), s');
  commonStopDevice _ s := (mkFrameInfo 0 0 0 0 0 0, s);
  base_getCurrentPreviewFrame _ _ buffer s :=
    let (r, s') := pop s in ((r, buffer), s');
  new_array _ s :=
    let (r, s') := pop s in
    ((if r =? 0 then Some [] else None), s');
  Select _ _ s := let (r, s') := pop s in (SelectRes_of_Z r, s');
  systemTime _ := pop;
  mEmulatedFPS := 50
|}.

Definition fresh_device : Device :=
  mkDevice ECDS_CONSTRUCTED (mkFrameInfo 0 0 0 0 0 0) 0
           (1%float, 1%float, 1%float) 0%float None "".

Definition script_world (s : Script) : World Script :=
  mkWorld fresh_device ∅ s [].

(** The same script read by a base class whose [commonStopDevice] keeps the
    geometry. *)
Definition keeping_env : Collaborators Script := {|
  connectClient := @connectClient Script script_env;
  queryConnect := @queryConnect Script script_env;
  queryDisconnect := @queryDisconnect Script script_env;
  queryInfo := @queryInfo Script script_env;
  queryStart := @queryStart Script script_env;
  queryStop := @queryStop Script script_env;
  queryFrame := @queryFrame Script script_env;
  base_Initialize_res := @base_Initialize_res Script script_env;
  commonStartDevice := @commonStartDevice Script script_env;
  commonStopDevice f s := (f, s);
  base_getCurrentPreviewFrame := @base_getCurrentPreviewFrame Script script_env;
  new_array := @new_array Script script_env;
  Select := @Select Script script_env;
  systemTime := @systemTime Script script_env;
  mEmulatedFPS := @mEmulatedFPS Script script_env
|}.

(** ** The transition table of section 4.1 *)

(** What the table says of a call made in a given state: the state forbids
    it, the device is already in the desired state, or the guarded effect
    runs and, on success, moves the device to [target]. *)
Inductive Row :=
| Illegal
| Noop
| Effect (target : EmulatedCameraDeviceState).

(** The table, row by row, in the spec's words.  A Started device counts as
    "already Connected" for Connect. *)
Definition spec_row (c : Call) (s : EmulatedCameraDeviceState) : Row :=
  match c, s with
  | Call_Initialize _ _, ECDS_CONSTRUCTED => Effect ECDS_INITIALIZED
  | Call_Initialize _ _, _ => Illegal
  | Call_Connect, ECDS_INITIALIZED => Effect ECDS_CONNECTED
  | Call_Connect, ECDS_CONSTRUCTED => Illegal
  | Call_Connect, _ => Noop
  | Call_Disconnect, ECDS_CONNECTED => Effect ECDS_INITIALIZED
  | Call_Disconnect, ECDS_STARTED => Illegal
  | Call_Disconnect, _ => Noop
  | Call_Start _ _ _, ECDS_CONNECTED => Effect ECDS_STARTED
  | Call_Start _ _ _, ECDS_STARTED => Noop
  | Call_Start _ _ _, _ => Illegal
  | Call_Stop, ECDS_STARTED => Effect ECDS_CONNECTED
  | Call_Stop, _ => Noop
  end.

(** The state the table reaches when the call returned [r]. *)
Definition spec_step (s : EmulatedCameraDeviceState) (c : Call) (r : status_t)
    : EmulatedCameraDeviceState :=
  match spec_row c s with
  | Effect target => if r =? NO_ERROR then target else s
  | _ => s
  end.

(** The status the table prescribes: [InvalidOperation] for a forbidden
    call, success for a no-op, the outcome of the effect otherwise. *)
Definition spec_status (s : EmulatedCameraDeviceState) (c : Call) (r : status_t)
    : Prop :=
  match spec_row c s with
  | Illegal => r = EINVAL
  | Noop => r = NO_ERROR
  | Effect _ => True
  end.

(** The table applied in order to a sequence of calls and their statuses. *)
Fixpoint spec_run (s : EmulatedCameraDeviceState) (cs : list Call)
    (rs : list status_t) : EmulatedCameraDeviceState :=
  match cs, rs with
  | c :: cs', r :: rs' => spec_run (spec_step s c r) cs' rs'
  | _, _ => s
  end.

Fixpoint spec_statuses (s : EmulatedCameraDeviceState) (cs : list Call)
    (rs : list status_t) : Prop :=
  match cs, rs with
  | c :: cs', r :: rs' => spec_status s c r ∧ spec_statuses (spec_step s c r) cs' rs'
  | _, _ => True
  end.

Definition is_Initialize (c : Call) : bool :=
  match c with Call_Initialize _ _ => true | _ => false end.

(** The statuses the code conforms to: the table's, except that nothing is
    prescribed for an Initialize the table forbids. *)
Definition code_status (s : EmulatedCameraDeviceState) (c : Call) (r : status_t)
    : Prop :=
  match c with
  | Call_Initialize _ _ => True
  | _ => spec_status s c r
  end.

Fixpoint code_statuses (s : EmulatedCameraDeviceState) (cs : list Call)
    (rs : list status_t) : Prop :=
  match cs, rs with
  | c :: cs', r :: rs' => code_status s c r ∧ code_statuses (spec_step s c r) cs' rs'
  | _, _ => True
  end.

(** ** Observations on traces, devices and worlds *)

Definition is_delete (e : Event) : bool :=
  match e with Ev_delete _ => true | _ => false end.

(** The entry points that neither allocate nor write a frame. *)
Definition quiet (o : Op) : bool :=
  match o with
  | Op_call (Call_Start _ _ _) => false
  | Op_inWorkerThread => false
  | _ => true
  end.

Definition is_pull_failure (e : Event) : bool :=
  match e with
  | Ev_queryFrame _ _ _ _ _ _ _ _ res => negb (res =? NO_ERROR)
  | _ => false
  end.

Definition is_onCameraDeviceError (e : Event) : bool :=
  match e with Ev_onCameraDeviceError _ => true | _ => false end.

(** The preview pointer a frame pull was given. *)
Definition pull_pointer (e : Event) : option ptr :=
  match e with
  | Ev_queryFrame _ pframe _ _ _ _ _ _ _ => Some pframe
  | _ => None
  end.

(** The timestamps of the frame-ready notifications of a trace, in order. *)
Definition frame_timestamps (evs : list Event) : list Z :=
  omap (λ e, match e with
             | Ev_onNextFrameAvailable _ timestamp => Some timestamp
             | _ => None
             end) evs.

(** The readings of the clock in a trace, in order. *)
Definition clock_readings (evs : list Event) : list Z :=
  omap (λ e, match e with
             | Ev_systemTime _ now => Some now
             | _ => None
             end) evs.

(** The clock readings ([inl]) and the frame-ready timestamps ([inr]) of a
    trace, in the order they occur. *)
Definition stamping (evs : list Event) : list (Z + Z) :=
  omap (λ e, match e with
             | Ev_systemTime _ now => Some (inl now)
             | Ev_onNextFrameAvailable _ timestamp => Some (inr timestamp)
             | _ => None
             end) evs.

(** The frame pull of a device [d] with result [res]: the arguments the
    source passes to [queryFrame]. *)
Definition pull_event (d : Device) (res : status_t) : Event :=
  Ev_queryFrame (mCurrentFrame (mFrame d)) (mPreviewFrame d)
                (mFrameBufferSize (mFrame d))
                (size_t_of_int (int_mul (mTotalPixels (mFrame d)) 4))
                (mWhiteBalanceScale d).1.1 (mWhiteBalanceScale d).1.2
                (mWhiteBalanceScale d).2 (mExposureCompensation d) res.

(** Two devices that differ in [mCurFrameTimestamp] at most. *)
Definition same_but_timestamp (d d' : Device) : Prop :=
  set_mCurFrameTimestamp 0 d' = set_mCurFrameTimestamp 0 d.

Definition is_Call_Start (c : Call) : bool :=
  match c with Call_Start _ _ _ => true | _ => false end.

Definition is_Op_Start (o : Op) : bool :=
  match o with Op_call c => is_Call_Start c | _ => false end.

(** An allocation that returned an array. *)
Definition is_new_success (e : Event) : bool :=
  match e with Ev_new _ (Some _) => true | _ => false end.

Definition is_pull_success (e : Event) : bool :=
  match e with
  | Ev_queryFrame _ _ _ _ _ _ _ _ res => res =? NO_ERROR
  | _ => false
  end.

Definition is_onNextFrameAvailable (e : Event) : bool :=
  match e with Ev_onNextFrameAvailable _ _ => true | _ => false end.

(** The codes of the error notifications of a trace, in order. *)
Definition error_codes (evs : list Event) : list Z :=
  omap (λ e, match e with
             | Ev_onCameraDeviceError err => Some err
             | _ => None
             end) evs.

(** How many events of a trace satisfy [f]. *)
Definition count (f : Event → bool) (evs : list Event) : nat :=
  length (List.filter f evs).

Section Observations.

Context {Env : Type} `{Collaborators Env}.

(** The device invariant: a Started device has a preview buffer, and the
    preview pointer, when set, points to a live array. *)
Definition Inv (w : World Env) : Prop :=
  (mState (dev w) = ECDS_STARTED → is_Some (mPreviewFrame (dev w))) ∧
  (∀ a, mPreviewFrame (dev w) = Some a → is_Some (heap w !! a)).

Definition frame_interval : Z := 1000000 ÷ mEmulatedFPS.

(** The events of one pass, by its outcome: cancelled, a frame delivered, or
    the pull failed. *)
Inductive pass_events (d : Device) : bool → list Event → Prop :=
| pass_exit :
    pass_events d false [Ev_Select (-1) frame_interval EXIT_THREAD]
| pass_frame sel now :
    sel ≠ EXIT_THREAD →
    pass_events d true
      [Ev_Select (-1) frame_interval sel; pull_event d NO_ERROR;
       Ev_systemTime SYSTEM_TIME_MONOTONIC now;
       Ev_onNextFrameAvailable (mCurrentFrame (mFrame d)) now]
| pass_error sel res :
    sel ≠ EXIT_THREAD → res ≠ NO_ERROR →
    pass_events d false
      [Ev_Select (-1) frame_interval sel; pull_event d res;
       Ev_onCameraDeviceError CAMERA_ERROR_SERVER_DIED].

(** The events of a run of the loop: passes that delivered a frame, then
    nothing more (the run is still going) or a last pass that ended it. *)
Inductive loop_events (d : Device) : bool → list Event → Prop :=
| loop_running : loop_events d false []
| loop_last evs : pass_events d false evs → loop_events d true evs
| loop_more evs exited rest :
    pass_events d true evs → loop_events d exited rest →
    loop_events d exited (evs ++ rest).

End Observations.

(** ** Closed runs against the scripted environment *)

Definition connected_ops : list Op :=
  [Op_call (Call_Initialize "cam" 5555); Op_call Call_Connect].

Definition started_ops : list Op :=
  connected_ops ++ [Op_call (Call_Start 2 1 7)].

(** A device taken to Connected, then to Started for 2x1 frames, by a script
    whose first answers are all successes; [rest] answers what follows. *)
Definition connected_world (rest : Script) : World Script :=
  snd (execs connected_ops (script_world ([0; 0; 0] ++ rest))).

Definition started_world (rest : Script) : World Script :=
  snd (execs started_ops (script_world ([0; 0; 0; 0; 0; 0] ++ rest))).

(** A session of two passes: a frame at time 100, then a pull that fails. *)
Definition failing_session : World Script :=
  started_world [0; 0; 9; 100; 0; 7; 0].

Definition failing_session_events : list Event :=
  [Ev_Select (-1) 20000 TIMEOUT;
   Ev_queryFrame 4096 (Some 1%positive) 8 8 1%float 1%float 1%float 0%float 0;
   Ev_systemTime SYSTEM_TIME_MONOTONIC 100;
   Ev_onNextFrameAvailable 4096 100;
   Ev_Select (-1) 20000 TIMEOUT;
   Ev_queryFrame 4096 (Some 1%positive) 8 8 1%float 1%float 1%float 0%float 7;
   Ev_onCameraDeviceError CAMERA_ERROR_SERVER_DIED].

(** A session of two frames, at times 100 and 200, then cancelled. *)
Definition two_frame_session : World Script :=
  started_world [0; 0; 9; 100; 0; 0; 9; 200; 2].

Definition two_frame_session_events : list Event :=
  [Ev_Select (-1) 20000 TIMEOUT;
   Ev_queryFrame 4096 (Some 1%positive) 8 8 1%float 1%float 1%float 0%float 0;
   Ev_systemTime SYSTEM_TIME_MONOTONIC 100;
   Ev_onNextFrameAvailable 4096 100;
   Ev_Select (-1) 20000 TIMEOUT;
   Ev_queryFrame 4096 (Some 1%positive) 8 8 1%float 1%float 1%float 0%float 0;
   Ev_systemTime SYSTEM_TIME_MONOTONIC 200;
   Ev_onNextFrameAvailable 4096 200;
   Ev_Select (-1) 20000 EXIT_THREAD].

(** A device just initialised; a device stopped after a session, which still
    holds the array of that session at address 1. *)
Definition initialized_world (rest : Script) : World Script :=
  snd (execs [Op_call (Call_Initialize "cam" 5555)] (script_world ([0; 0] ++ rest))).

Definition stopped_world (rest : Script) : World Script :=
  snd (stopDevice (started_world ([0] ++ rest))).

(** A session about to pull a frame filled with the byte 9 at time 100. *)
Definition pulling_session : World Script :=
  started_world [0; 0; 9; 100].

(** A session of two frames whose clock answers 100 both times, then
    cancelled. *)
Definition stalled_clock_session : World Script :=
  started_world [0; 0; 9; 100; 0; 0; 9; 100; 2].

Definition stalled_clock_session_events : list Event :=
  [Ev_Select (-1) 20000 TIMEOUT;
   Ev_queryFrame 4096 (Some 1%positive) 8 8 1%float 1%float 1%float 0%float 0;
   Ev_systemTime SYSTEM_TIME_MONOTONIC 100;
   Ev_onNextFrameAvailable 4096 100;
   Ev_Select (-1) 20000 TIMEOUT;
   Ev_queryFrame 4096 (Some 1%positive) 8 8 1%float 1%float 1%float 0%float 0;
   Ev_systemTime SYSTEM_TIME_MONOTONIC 100;
   Ev_onNextFrameAvailable 4096 100;
   Ev_Select (-1) 20000 EXIT_THREAD].

(** A Started device that has pulled one frame, filled with the byte 9, with
    the answer to the next remote call (a success) still in the script: once
    with the scripted base class, once with the one that keeps the
    geometry. *)
Definition filmed_ops : list Op := started_ops ++ [Op_inWorkerThread].

Definition filmed_script : Script := [0; 0; 0; 0; 0; 0; 0; 0; 9; 100; 0].

Definition filmed_world : World Script :=
  snd (execs filmed_ops (script_world filmed_script)).

Definition filmed_world_keeping : World Script :=
  snd (@execs Script keeping_env filmed_ops (script_world filmed_script)).

(** * Proofs *)

(** ** Proof tools *)

(** Run a computation symbolically: unfold the monad and the wrappers, then
    split on every answer of the environment and every test. *)
Ltac unfold_monad :=
  unfold bind, ret, emit, ask, get, modify, get_heap, set_heap in *.

Ltac unfold_calls :=
  unfold mGenyClient_connectClient, mGenyClient_queryConnect,
    mGenyClient_queryDisconnect, mGenyClient_queryInfo, mGenyClient_queryStart,
    mGenyClient_queryStop, mGenyClient_queryFrame, WorkerThread_Select,
    call_systemTime, mCameraHAL_onNextFrameAvailable,
    mCameraHAL_onCameraDeviceError, EmulatedCameraDevice_Initialize,
    EmulatedCameraDevice_commonStartDevice, EmulatedCameraDevice_commonStopDevice,
    EmulatedCameraDevice_getCurrentPreviewFrame, new_uint32_array, delete_array
    in *.

Ltac unfold_ops :=
  unfold Initialize, getDeviceInfo, connectDevice, disconnectDevice,
    startDevice, stopDevice, getCurrentPreviewFrame, inWorkerThread,
    isInitialized, isConnected, isStarted in *.

(** Turn the boolean tests met along a run into equations. *)
Ltac eqb_hyps :=
  repeat match goal with
  | E : negb _ = true |- _ => apply negb_true_iff in E
  | E : negb _ = false |- _ => apply negb_false_iff in E
  | E : (_ =? _) = true |- _ => apply Z.eqb_eq in E
  | E : (_ =? _) = false |- _ => apply Z.eqb_neq in E
  end.

Ltac run := unfold_ops; unfold_calls; unfold_monad; simpl in *;
            repeat (case_match; simplify_eq /=).

Section Lifecycle.

Context {Env : Type} `{Collaborators Env}.

Lemma calls_cons (c : Call) (cs : list Call) (w : World Env) :
  calls (c :: cs) w =
  (fst (call c w) :: fst (calls cs (snd (call c w))),
   snd (calls cs (snd (call c w)))).
Proof.
  simpl. unfold bind, ret.
  destruct (call c w) as [r w1]; simpl.
  by destruct (calls cs w1) as [rs w2].
Qed.

(** One call moves the state as the table says, given the status returned. *)
Lemma call_step (c : Call) (w : World Env) :
  mState (dev (snd (call c w))) = spec_step (mState (dev w)) c (fst (call c w)).
Proof.
  destruct w as [[s f t wb ex p nm] h e tr], c; unfold call, spec_step; simpl.
  all: run; try reflexivity; try congruence.
Qed.

(** Outside Initialize, the status is the table's. *)
Lemma call_status (c : Call) (w : World Env) :
  code_status (mState (dev w)) c (fst (call c w)).
Proof.
  destruct w as [[s f t wb ex p nm] h e tr], c;
    unfold call, code_status, spec_status; simpl; [exact I | ..].
  all: run; try reflexivity; try exact I; try congruence.
Qed.

(** A forbidden call (other than Initialize) touches nothing. *)
Lemma call_illegal (c : Call) (w : World Env) :
  is_Initialize c = false →
  spec_row c (mState (dev w)) = Illegal →
  call c w = (EINVAL, w).
Proof.
  destruct w as [[s f t wb ex p nm] h e tr], c; unfold call; simpl;
    intros Hc Hrow; try discriminate Hc.
  all: destruct s; try discriminate Hrow; reflexivity.
Qed.

(** A call that finds the device in the desired state touches nothing. *)
Lemma call_noop (c : Call) (w : World Env) :
  spec_row c (mState (dev w)) = Noop →
  call c w = (NO_ERROR, w).
Proof.
  destruct w as [[s f t wb ex p nm] h e tr], c; unfold call; simpl;
    intros Hrow.
  all: destruct s; try discriminate Hrow; reflexivity.
Qed.

(** Initialize tests no state: a failing [connectClient] decides its result
    whatever the state is. *)
Lemma Initialize_connect_failure (device_name : string) (port : Z)
    (w : World Env) (res : status_t) (e' : Env) :
  connectClient port (env w) = (res, e') →
  res ≠ NO_ERROR →
  Initialize device_name port w =
  (res, mkWorld (dev w) (heap w) e' (trace w ++ [Ev_connectClient port res])).
Proof.
  intros Hc Hres. unfold Initialize. unfold_calls. unfold_monad. simpl.
  rewrite Hc. simpl.
  destruct (res =? NO_ERROR) eqn:E; [apply Z.eqb_eq in E; contradiction | done].
Qed.

Lemma calls_follow_table (cs : list Call) (w : World Env) :
  length (fst (calls cs w)) = length cs ∧
  mState (dev (snd (calls cs w))) =
    spec_run (mState (dev w)) cs (fst (calls cs w)) ∧
  code_statuses (mState (dev w)) cs (fst (calls cs w)).
Proof.
  revert w. induction cs as [|c cs IH]; intros w; [done |].
  rewrite calls_cons. simpl.
  destruct (IH (snd (call c w))) as (Hlen & Hst & Hcode).
  rewrite <- call_step. repeat split; auto using call_status.
Qed.

End Lifecycle.

(** ** Start, Stop and the preview buffer *)

(** Close a goal [∃ evs, tr ++ [e1] ++ ... = tr ++ evs ∧ Forall P evs]. *)
Ltac trace_suffix :=
  simpl; rewrite <- ?app_assoc; eexists; split;
  [ first [ reflexivity | symmetry; apply app_nil_r ]
  | repeat constructor ].

Section Buffer.

Context {Env : Type} `{Collaborators Env}.

Lemma write_through_is_Some (p : ptr) (written : list Byte.byte) (h : Heap) (a : addr) :
  is_Some (h !! a) → is_Some (write_through p written h !! a).
Proof.
  intros Ha. unfold write_through.
  destruct p as [b|]; [| done].
  destruct (h !! b) eqn:Hb; [| done].
  destruct (decide (b = a)) as [->|Hne].
  - rewrite lookup_insert_eq. eauto.
  - by rewrite lookup_insert_ne.
Qed.

Lemma execs_cons (o : Op) (os : list Op) (w : World Env) :
  snd (execs (o :: os) w) = snd (execs os (snd (exec o w))).
Proof. simpl. unfold bind. by destruct (exec o w). Qed.

(** Start on a Started device: success, and nothing at all happens. *)
Lemma startDevice_started (width height pix_fmt : Z) (w : World Env) :
  mState (dev w) = ECDS_STARTED →
  startDevice width height pix_fmt w = (NO_ERROR, w).
Proof.
  destruct w as [[s f t wb ex p nm] h e tr]; simpl; intros ->. reflexivity.
Qed.

(** A Start that returns success leaves the device Started. *)
Lemma startDevice_success (width height pix_fmt : Z) (w w' : World Env) :
  startDevice width height pix_fmt w = (NO_ERROR, w') →
  mState (dev w') = ECDS_STARTED.
Proof.
  destruct w as [[s f t wb ex p nm] h e tr]. intros Hrun.
  run; try reflexivity; try discriminate.
Qed.

(** Stop on a Started device whose remote stop succeeds: the inverted test
    [mPreviewFrame == NULL] leaves a non-null pointer and its array alone. *)
Lemma stopDevice_success (w w' : World Env) (a : addr) :
  mState (dev w) = ECDS_STARTED →
  mPreviewFrame (dev w) = Some a →
  stopDevice w = (NO_ERROR, w') →
  mState (dev w') = ECDS_CONNECTED ∧
  mPreviewFrame (dev w') = Some a ∧
  heap w' = heap w ∧
  trace w' = trace w ++ [Ev_queryStop NO_ERROR; Ev_commonStopDevice].
Proof.
  destruct w as [[s f t wb ex p nm] h e tr]; simpl. intros -> -> Hrun.
  run; try discriminate.
  rewrite <- app_assoc. done.
Qed.

(** Stop, outcome by outcome. *)
Lemma stopDevice_run (w : World Env) :
  (mState (dev w) ≠ ECDS_STARTED → stopDevice w = (NO_ERROR, w)) ∧
  (mState (dev w) = ECDS_STARTED →
   (fst (queryStop (env w)) ≠ NO_ERROR →
    stopDevice w =
    (fst (queryStop (env w)),
     mkWorld (dev w) (heap w) (snd (queryStop (env w)))
       (trace w ++ [Ev_queryStop (fst (queryStop (env w)))]))) ∧
   (fst (queryStop (env w)) = NO_ERROR →
    stopDevice w =
    (NO_ERROR,
     mkWorld
       (set_mState ECDS_CONNECTED
          (set_mFrame
             (fst (commonStopDevice (mFrame (dev w)) (snd (queryStop (env w)))))
             (dev w)))
       (heap w)
       (snd (commonStopDevice (mFrame (dev w)) (snd (queryStop (env w)))))
       (trace w ++ [Ev_queryStop NO_ERROR; Ev_commonStopDevice])))).
Proof.
  destruct w as [[s f t wb ex p nm] h e tr]; simpl.
  split.
  - intros Hs. destruct s; try reflexivity. contradiction.
  - intros ->.
    unfold stopDevice. unfold_calls. unfold_monad. simpl.
    destruct (queryStop e) as [r e1]. simpl.
    split; intros Hr.
    + apply Z.eqb_neq in Hr. by rewrite Hr.
    + subst r. simpl.
      destruct p; simpl;
        destruct (commonStopDevice f e1) as [f' e2]; simpl;
        rewrite <- ?app_assoc; done.
Qed.

(** Away from Started, the quiet entry points leave the geometry alone and
    do not start the device. *)
Lemma exec_quiet_frame (o : Op) (w : World Env) :
  quiet o = true →
  mState (dev w) ≠ ECDS_STARTED →
  mFrame (dev (snd (exec o w))) = mFrame (dev w) ∧
  mState (dev (snd (exec o w))) ≠ ECDS_STARTED.
Proof.
  destruct w as [[s f t wb ex p nm] h e tr], o as [[]| | |]; unfold exec, call;
    intros Hq Hs; try discriminate Hq.
  all: run; simpl in *; done.
Qed.

Lemma execs_quiet_frame (os : list Op) (w : World Env) :
  forallb quiet os = true →
  mState (dev w) ≠ ECDS_STARTED →
  mFrame (dev (snd (execs os w))) = mFrame (dev w).
Proof.
  revert w. induction os as [|o os IH]; intros w Hq Hs; [done |].
  simpl in Hq. apply andb_prop in Hq as [Ho Hos].
  rewrite execs_cons.
  destruct (exec_quiet_frame o w Ho Hs) as [<- Hs'].
  by apply IH.
Qed.

(** What each entry point does to the arrays: no entry point releases one,
    and only Start and the worker thread touch the heap or the pointer. *)
Lemma exec_no_delete (o : Op) (w : World Env) :
  ∃ evs, trace (snd (exec o w)) = trace w ++ evs ∧
         Forall (λ e, is_delete e = false) evs.
Proof.
  destruct w as [[s f t wb ex p nm] h e tr], o as [[]| | |]; unfold exec, call.
  all: run; trace_suffix.
Qed.

Lemma exec_quiet (o : Op) (w : World Env) :
  quiet o = true →
  heap (snd (exec o w)) = heap w ∧
  mPreviewFrame (dev (snd (exec o w))) = mPreviewFrame (dev w).
Proof.
  destruct w as [[s f t wb ex p nm] h e tr], o as [[]| | |]; unfold exec, call;
    intros Hq; try discriminate Hq.
  all: run; done.
Qed.

Lemma exec_heap_grows (o : Op) (w : World Env) (a : addr) :
  is_Some (heap w !! a) → is_Some (heap (snd (exec o w)) !! a).
Proof.
  destruct (quiet o) eqn:Hq.
  { destruct (exec_quiet o w Hq) as [-> _]. done. }
  destruct w as [[s f t wb ex p nm] h e tr], o as [[]| | |]; try discriminate Hq;
    unfold exec, call; intros Ha.
  - run; try done.
    all: rewrite lookup_insert_ne; [done |].
    all: intros <-; apply elem_of_dom in Ha; by apply is_fresh in Ha.
  - run; try done; by apply write_through_is_Some.
Qed.

Lemma exec_Inv (o : Op) (w : World Env) : Inv w → Inv (snd (exec o w)).
Proof.
  destruct w as [[s f t wb ex p nm] h e tr], o as [[]| | |];
    unfold Inv, exec, call; simpl; intros [Hs Hp].
  all: run.
  all: split;
    [ intros Hst; first [ discriminate Hst | by eauto | by apply Hs ]
    | intros a Ha; simplify_eq;
      first [ by apply Hp
            | by apply write_through_is_Some, Hp
            | rewrite lookup_insert_eq; by eauto ] ].
Qed.

Lemma execs_Inv (os : list Op) (w : World Env) : Inv w → Inv (snd (execs os w)).
Proof.
  revert w. induction os as [|o os IH]; intros w Hw; [done |].
  rewrite execs_cons. by apply IH, exec_Inv.
Qed.

Lemma constructed_Inv (w : World Env) : constructed (dev w) → Inv w.
Proof.
  intros [Hs Hp]. split.
  - rewrite Hs. discriminate.
  - rewrite Hp. discriminate.
Qed.

Lemma reachable_Inv (w : World Env) : reachable w → Inv w.
Proof.
  intros (w0 & os & Hc & <-). by apply execs_Inv, constructed_Inv.
Qed.

(** Quiet entry points, in any number, leave the arrays and the preview
    pointer as they are. *)
Lemma execs_quiet (os : list Op) (w : World Env) :
  forallb quiet os = true →
  heap (snd (execs os w)) = heap w ∧
  mPreviewFrame (dev (snd (execs os w))) = mPreviewFrame (dev w).
Proof.
  revert w. induction os as [|o os IH]; intros w Hq; [done |].
  simpl in Hq. apply andb_prop in Hq as [Ho Hos].
  rewrite execs_cons.
  destruct (IH (snd (exec o w)) Hos) as [-> ->].
  by apply exec_quiet.
Qed.

Lemma execs_no_delete (os : list Op) (w : World Env) :
  ∃ evs, trace (snd (execs os w)) = trace w ++ evs ∧
         Forall (λ e, is_delete e = false) evs.
Proof.
  revert w. induction os as [|o os IH]; intros w.
  - exists []. by rewrite app_nil_r.
  - rewrite execs_cons.
    destruct (IH (snd (exec o w))) as (evs2 & -> & H2).
    destruct (exec_no_delete o w) as (evs1 & -> & H1).
    exists (evs1 ++ evs2). rewrite app_assoc. split; [done |].
    by apply Forall_app.
Qed.

Lemma execs_heap_grows (os : list Op) (w : World Env) (a : addr) :
  is_Some (heap w !! a) → is_Some (heap (snd (execs os w)) !! a).
Proof.
  revert w. induction os as [|o os IH]; intros w Ha; [done |].
  rewrite execs_cons. by apply IH, exec_heap_grows.
Qed.

(** The destructor is the one place where the array is released. *)
Lemma destructor_releases (w : World Env) (a : addr) :
  mPreviewFrame (dev w) = Some a →
  destructor w =
  (tt, mkWorld (dev w) (delete a (heap w)) (env w) (trace w ++ [Ev_delete a])).
Proof.
  destruct w as [[s f t wb ex p nm] h e tr]; simpl. intros ->. reflexivity.
Qed.

(** [getCurrentPreviewFrame] with a preview pointer: a [memcpy] out of the
    array, status 0, and the base class is not consulted. *)
Lemma getCurrentPreviewFrame_Some (buffer : list Byte.byte) (w : World Env) (a : addr) :
  mPreviewFrame (dev w) = Some a →
  let n := size_t_of_int (int_mul (mTotalPixels (mFrame (dev w))) 4) in
  getCurrentPreviewFrame buffer w =
  ((0, memcpy buffer (default [] (heap w !! a)) (Z.to_nat n)),
   mkWorld (dev w) (heap w) (env w) (trace w ++ [Ev_memcpy a n])).
Proof.
  destruct w as [[s f t wb ex p nm] h e tr]; simpl. intros ->. reflexivity.
Qed.

(** Without one, the call is the base class's. *)
Lemma getCurrentPreviewFrame_None (buffer : list Byte.byte) (w : World Env) :
  mPreviewFrame (dev w) = None →
  getCurrentPreviewFrame buffer w =
  EmulatedCameraDevice_getCurrentPreviewFrame buffer w.
Proof.
  destruct w as [[s f t wb ex p nm] h e tr]; simpl. intros ->. reflexivity.
Qed.

Lemma base_getCurrentPreviewFrame_run (buffer : list Byte.byte) (w : World Env) :
  EmulatedCameraDevice_getCurrentPreviewFrame buffer w =
  (fst (base_getCurrentPreviewFrame (mState (dev w)) (mFrame (dev w)) buffer (env w)),
   mkWorld (dev w) (heap w)
     (snd (base_getCurrentPreviewFrame (mState (dev w)) (mFrame (dev w)) buffer (env w)))
     (trace w ++ [Ev_base_getCurrentPreviewFrame
        (fst (fst (base_getCurrentPreviewFrame (mState (dev w)) (mFrame (dev w))
                     buffer (env w))))])).
Proof.
  destruct w as [[s f t wb ex p nm] h e tr].
  unfold EmulatedCameraDevice_getCurrentPreviewFrame. unfold_monad. simpl.
  by destruct (base_getCurrentPreviewFrame s f buffer e) as [[r out] e'].
Qed.

(** [mTotalPixels * 4] as the [size_t] handed to [memcpy], when the product
    fits an [int]. *)
Lemma size_of_preview (n : Z) :
  0 ≤ n → n * 4 < 2 ^ 31 → size_t_of_int (int_mul n 4) = n * 4.
Proof.
  intros Hn Hlt. unfold size_t_of_int, int_mul.
  rewrite (Z.mod_small (n * 4 + 2 ^ 31)); [| lia].
  rewrite Z.mod_small; lia.
Qed.

Lemma memcpy_spec (dst src : list Byte.byte) (n : nat) :
  (n ≤ length src)%nat → (n ≤ length dst)%nat →
  length (memcpy dst src n) = length dst ∧
  take n (memcpy dst src n) = take n src ∧
  drop n (memcpy dst src n) = drop n dst.
Proof.
  intros Hs Hd. unfold memcpy.
  assert (Hl : length (take n src) = n) by (rewrite length_take; lia).
  repeat split.
  - rewrite length_app, length_drop, Hl. lia.
  - rewrite take_app_le by lia. rewrite take_take. f_equal. lia.
  - rewrite drop_app_ge by lia. rewrite Hl. by replace (n - n)%nat with 0%nat by lia.
Qed.

End Buffer.

(** ** The acquisition loop *)

Section Acquisition.

Context {Env : Type} `{Collaborators Env}.

Lemma same_but_timestamp_fields (d d' : Device) :
  same_but_timestamp d d' →
  mState d' = mState d ∧ mFrame d' = mFrame d ∧
  mPreviewFrame d' = mPreviewFrame d ∧ pull_event d' = pull_event d.
Proof.
  destruct d, d'. unfold same_but_timestamp, set_mCurFrameTimestamp, pull_event.
  simpl. intros [= -> -> -> -> -> ->]. done.
Qed.

Lemma pass_events_same (d d' : Device) (b : bool) (evs : list Event) :
  same_but_timestamp d d' → pass_events d' b evs → pass_events d b evs.
Proof.
  intros Hsame. destruct (same_but_timestamp_fields d d' Hsame) as (_ & Hf & _ & Hp).
  intros Hev. destruct Hev; rewrite ?Hp, ?Hf; by constructor.
Qed.

Lemma loop_events_same (d d' : Device) (b : bool) (evs : list Event) :
  same_but_timestamp d d' → loop_events d' b evs → loop_events d b evs.
Proof.
  intros Hsame Hev. induction Hev.
  - constructor.
  - apply loop_last. by eapply pass_events_same.
  - apply loop_more; [by eapply pass_events_same | done].
Qed.

(** One pass, step by step. *)
Lemma inWorkerThread_run (w : World Env) :
  let d := dev w in
  ∃ sel e1,
    Select (-1) frame_interval (env w) = (sel, e1) ∧
    ((sel = EXIT_THREAD ∧
      inWorkerThread w =
      (false, mkWorld d (heap w) e1
                (trace w ++ [Ev_Select (-1) frame_interval EXIT_THREAD])))
     ∨
     (sel ≠ EXIT_THREAD ∧
      ∃ res written e2,
        queryFrame (mCurrentFrame (mFrame d)) (mPreviewFrame d)
                   (mFrameBufferSize (mFrame d))
                   (size_t_of_int (int_mul (mTotalPixels (mFrame d)) 4))
                   (mWhiteBalanceScale d).1.1 (mWhiteBalanceScale d).1.2
                   (mWhiteBalanceScale d).2 (mExposureCompensation d) e1
        = ((res, written), e2) ∧
        ((res = NO_ERROR ∧
          ∃ now e3,
            systemTime SYSTEM_TIME_MONOTONIC e2 = (now, e3) ∧
            inWorkerThread w =
            (true, mkWorld (set_mCurFrameTimestamp now d)
                     (write_through (mPreviewFrame d) written (heap w)) e3
                     (trace w ++
                      [Ev_Select (-1) frame_interval sel; pull_event d NO_ERROR;
                       Ev_systemTime SYSTEM_TIME_MONOTONIC now;
                       Ev_onNextFrameAvailable (mCurrentFrame (mFrame d)) now])))
         ∨
         (res ≠ NO_ERROR ∧
          inWorkerThread w =
          (false, mkWorld d
                    (write_through (mPreviewFrame d) written (heap w)) e2
                    (trace w ++
                     [Ev_Select (-1) frame_interval sel; pull_event d res;
                      Ev_onCameraDeviceError CAMERA_ERROR_SERVER_DIED])))))).
Proof.
  destruct w as [[s f t wb ex p nm] h e tr]; simpl.
  destruct (Select (-1) frame_interval e) as [sel e1] eqn:Hsel.
  exists sel, e1. split; [done |].
  destruct (queryFrame (mCurrentFrame f) p (mFrameBufferSize f)
              (size_t_of_int (int_mul (mTotalPixels f) 4))
              wb.1.1 wb.1.2 wb.2 ex e1) as [[res written] e2] eqn:Hq.
  destruct (systemTime SYSTEM_TIME_MONOTONIC e2) as [now e3] eqn:Ht.
  unfold inWorkerThread, pull_event. unfold_calls. unfold_monad.
  unfold frame_interval in *. simpl. rewrite Hsel. simpl.
  destruct (decide (sel = EXIT_THREAD)) as [->|Hne]; [left; done |].
  right. split; [done |].
  rewrite bool_decide_eq_false_2 by done. simpl.
  rewrite Hq. simpl.
  exists res, written, e2. split; [done |].
  destruct (res =? NO_ERROR) eqn:Hres.
  - apply Z.eqb_eq in Hres as ->. left. split; [done |].
    exists now, e3. split; [done |].
    simpl. rewrite Ht. simpl. by rewrite <- !app_assoc.
  - apply Z.eqb_neq in Hres. right. split; [done |].
    simpl. by rewrite <- !app_assoc.
Qed.

(** One pass, as its events and what it leaves of the device. *)
Lemma inWorkerThread_pass (w : World Env) :
  ∃ evs,
    trace (snd (inWorkerThread w)) = trace w ++ evs ∧
    pass_events (dev w) (fst (inWorkerThread w)) evs ∧
    same_but_timestamp (dev w) (dev (snd (inWorkerThread w))).
Proof.
  destruct (inWorkerThread_run w) as (sel & e1 & _ & [[-> ->] | [Hsel Hq]]).
  - eexists. split; [reflexivity |]. split; [constructor | done].
  - destruct Hq as (res & written & e2 & _ & [[-> Ht] | [Hres ->]]).
    + destruct Ht as (now & e3 & _ & ->).
      eexists. split; [reflexivity |]. split; [by constructor |].
      by destruct (dev w).
    + eexists. split; [reflexivity |]. split; [by constructor | done].
Qed.

Lemma threadLoop_S (n : nat) (w : World Env) :
  threadLoop (S n) w =
  if fst (inWorkerThread w) then threadLoop n (snd (inWorkerThread w))
  else (true, snd (inWorkerThread w)).
Proof.
  simpl. unfold bind, ret. by destruct (inWorkerThread w) as [[] w1].
Qed.

(** A run of the loop, as its events. *)
Lemma threadLoop_events (n : nat) (w : World Env) :
  ∃ evs,
    trace (snd (threadLoop n w)) = trace w ++ evs ∧
    loop_events (dev w) (fst (threadLoop n w)) evs ∧
    same_but_timestamp (dev w) (dev (snd (threadLoop n w))).
Proof.
  revert w. induction n as [|n IH]; intros w.
  - exists []. simpl. rewrite app_nil_r. split; [done |]. split; [constructor | done].
  - rewrite threadLoop_S.
    destruct (inWorkerThread_pass w) as (evs1 & Htr & Hpass & Hsame).
    destruct (fst (inWorkerThread w)).
    + destruct (IH (snd (inWorkerThread w))) as (evs2 & -> & Hloop & Hsame2).
      exists (evs1 ++ evs2). rewrite Htr, app_assoc. split; [done |]. split.
      * apply loop_more; [done |]. by eapply loop_events_same.
      * unfold same_but_timestamp in *. congruence.
    + exists evs1. simpl. split; [done |]. split; [by apply loop_last | done].
Qed.

(** Once the loop has exited, a longer run is the same run. *)
Lemma threadLoop_exited (n m : nat) (w : World Env) :
  fst (threadLoop n w) = true → (n ≤ m)%nat → threadLoop m w = threadLoop n w.
Proof.
  revert m w. induction n as [|n IH]; intros m w Hex Hle; [discriminate Hex |].
  destruct m as [|m]; [lia |].
  rewrite threadLoop_S in Hex. rewrite !threadLoop_S.
  destruct (fst (inWorkerThread w)); [| done].
  apply IH; [done | lia].
Qed.

(** A failed pull in a run: the run has exited, and its last event is the
    one error notification. *)
Lemma loop_events_failure (d : Device) (exited : bool) (evs : list Event) :
  loop_events d exited evs →
  Exists (λ e, is_pull_failure e = true) evs →
  exited = true ∧
  ∃ pre, evs = pre ++ [Ev_onCameraDeviceError CAMERA_ERROR_SERVER_DIED] ∧
         Forall (λ e, is_onCameraDeviceError e = false) pre.
Proof.
  induction 1 as [|evs Hpass|evs exited rest Hpass Hloop IH]; intros Hex.
  - by apply Exists_nil in Hex.
  - split; [done |]. inversion Hpass; subst.
    + apply Exists_cons in Hex as [Hex|Hex]; [discriminate Hex |].
      by apply Exists_nil in Hex.
    + eexists [_; _]. split; [reflexivity |]. by repeat constructor.
  - inversion Hpass; subst.
    apply Exists_app in Hex as [Hex|Hex].
    { repeat (apply Exists_cons in Hex as [Hex|Hex]; [discriminate Hex |]).
      by apply Exists_nil in Hex. }
    destruct (IH Hex) as (-> & pre & -> & Hpre).
    split; [done |]. eexists (_ ++ pre). rewrite <- app_assoc.
    split; [reflexivity |]. apply Forall_app. split; [| done].
    by repeat constructor.
Qed.

(** Every frame-ready notification carries the clock reading of its pass. *)
Lemma loop_events_timestamps (d : Device) (exited : bool) (evs : list Event) :
  loop_events d exited evs → frame_timestamps evs = clock_readings evs.
Proof.
  induction 1 as [|evs Hpass|evs exited rest Hpass Hloop IH].
  - done.
  - by inversion Hpass.
  - unfold frame_timestamps, clock_readings in *. rewrite !omap_app, IH.
    by inversion Hpass.
Qed.

(** Every clock reading of a run is followed by the frame-ready notification
    that carries it, and there is no other notification. *)
Lemma loop_events_stamping (d : Device) (exited : bool) (evs : list Event) :
  loop_events d exited evs →
  stamping evs = List.flat_map (λ t, [inl t; inr t]) (clock_readings evs).
Proof.
  induction 1 as [|evs Hpass|evs exited rest Hpass Hloop IH].
  - done.
  - by inversion Hpass.
  - unfold stamping, clock_readings in *.
    rewrite !omap_app, List.flat_map_app, IH.
    by inversion Hpass.
Qed.

(** The pull of a pass is given the preview pointer of the device. *)
Lemma pass_events_pointer (d : Device) (again : bool) (evs : list Event)
    (e : Event) (p : ptr) :
  pass_events d again evs → e ∈ evs → pull_pointer e = Some p →
  p = mPreviewFrame d.
Proof.
  intros Hp He Hpp. inversion Hp; subst.
  all: repeat (apply elem_of_cons in He as [->|He];
               [simpl in Hpp; congruence |]).
  all: by apply elem_of_nil in He.
Qed.

End Acquisition.

(** ** The properties of the specification *)

Section Properties.

Context {Env : Type} `{Collaborators Env}.


(** C3 (amended).  A Start on a Connected device that fails returns the error
    at once and leaves the device Connected, but undoes nothing: the frame
    geometry stays as [commonStartDevice] left it and [commonStopDevice] is
    not called; when the allocation failed the result is [ENOMEM] and
    [mPreviewFrame] is null; when the remote open-capture failed the newly
    allocated array stays allocated and stays in [mPreviewFrame]. *)
Theorem startDevice_failure_keeps_side_effects
    (width height pix_fmt : Z) (w w' : World Env) (r : status_t) :
  mState (dev w) = ECDS_CONNECTED →
  startDevice width height pix_fmt w = (r, w') →
  r ≠ NO_ERROR →
  let base := commonStartDevice width height pix_fmt (mFrame (dev w)) (env w) in
  let f' := snd (fst base) in
  mState (dev w') = ECDS_CONNECTED ∧
  mFrame (dev w') = f' ∧
  ((fst (fst base) = r ∧
    heap w' = heap w ∧
    mPreviewFrame (dev w') = mPreviewFrame (dev w) ∧
    trace w' = trace w ++ [Ev_commonStartDevice width height pix_fmt r])
   ∨
   (fst (fst base) = NO_ERROR ∧ r = ENOMEM ∧
    heap w' = heap w ∧
    mPreviewFrame (dev w') = None ∧
    trace w' = trace w ++ [Ev_commonStartDevice width height pix_fmt NO_ERROR;
                           Ev_new (mTotalPixels f') None])
   ∨
   (fst (fst base) = NO_ERROR ∧
    ∃ a, heap w !! a = None ∧ is_Some (heap w' !! a) ∧
         mPreviewFrame (dev w') = Some a ∧
         trace w' = trace w ++
           [Ev_commonStartDevice width height pix_fmt NO_ERROR;
            Ev_new (mTotalPixels f') (Some a);
            Ev_queryStart (mPixelFormat f') (mFrameWidth f') (mFrameHeight f') r])).
Proof.
  destruct w as [[s f t wb ex p nm] h e tr]; simpl. intros -> Hrun Hr.
  run; eqb_hyps; try congruence.
  - (* commonStartDevice failed *)
    split; [done |]. split; [done |]. left. done.
  - (* the remote open-capture failed *)
    split; [done |]. split; [done |]. right. right.
    split; [done |]. eexists. split; [| split; [| split; [reflexivity |]]].
    + apply not_elem_of_dom, is_fresh.
    + rewrite lookup_insert_eq. eauto.
    + rewrite <- ?app_assoc.
      match goal with E : _ = NO_ERROR |- _ => rewrite E end. done.
  - (* the allocation failed *)
    split; [done |]. split; [done |]. right. left.
    rewrite <- ?app_assoc.
    match goal with E : _ = NO_ERROR |- _ => rewrite E end. done.
Qed.

(** C4.  Start on a device that is already Started returns success and
    changes nothing at all: no array is allocated, no collaborator is called
    (the heap, the environment and the trace are unchanged), and the state
    stays Started.  A Start that returned success leaves the device Started,
    so this is what a second Start in a row does. *)
Theorem startDevice_twice (width height pix_fmt : Z) (w : World Env) :
  (mState (dev w) = ECDS_STARTED →
   startDevice width height pix_fmt w = (NO_ERROR, w)) ∧
  (∀ (width0 height0 pix_fmt0 : Z) (w0 : World Env),
     startDevice width0 height0 pix_fmt0 w0 = (NO_ERROR, w) →
     mState (dev w) = ECDS_STARTED).
Proof.
  split.
  - apply startDevice_started.
  - intros width0 height0 pix_fmt0 w0. apply startDevice_success.
Qed.

(** C5.  When a frame pull fails in a run of the acquisition loop, the loop
    has exited, the run's events end with the one [onCameraDeviceError]
    ([CAMERA_ERROR_SERVER_DIED]) so that no frame-ready notification follows
    it, a longer run adds nothing, and the device state is the one the loop
    started in. *)
Theorem pull_failure_ends_loop (n : nat) (w : World Env) (evs : list Event) :
  trace (snd (threadLoop n w)) = trace w ++ evs →
  Exists (λ e, is_pull_failure e = true) evs →
  fst (threadLoop n w) = true ∧
  (∃ pre, evs = pre ++ [Ev_onCameraDeviceError CAMERA_ERROR_SERVER_DIED] ∧
          Forall (λ e, is_onCameraDeviceError e = false) pre) ∧
  (∀ m, (n ≤ m)%nat → threadLoop m w = threadLoop n w) ∧
  mState (dev (snd (threadLoop n w))) = mState (dev w).
Proof.
  intros Htr Hfail.
  destruct (threadLoop_events n w) as (evs' & Htr' & Hloop & Hsame).
  rewrite Htr in Htr'. apply app_inv_head in Htr' as <-.
  destruct (loop_events_failure _ _ _ Hloop Hfail) as [Hex Hpre].
  split; [done |]. split; [done |]. split.
  - intros m Hm. by apply threadLoop_exited.
  - by destruct (same_but_timestamp_fields _ _ Hsame) as (-> & _).
Qed.

(** C6.  One pass of the acquisition loop: it waits in [Select] with the
    timeout [1000000 / mEmulatedFPS]; on [EXIT_THREAD] it ends the loop and
    does nothing else; otherwise it calls [queryFrame] with the frame buffer,
    the preview buffer, their two sizes, the three white-balance gains and the
    exposure compensation; on success it reads the monotonic clock, stores
    the reading as the frame timestamp, notifies [onNextFrameAvailable] with
    the frame buffer and that timestamp, and the loop goes on; on failure it
    notifies [onCameraDeviceError] and ends the loop. *)
Theorem acquisition_pass (w : World Env) :
  let d := dev w in
  ∃ sel e1,
    Select (-1) (1000000 ÷ mEmulatedFPS) (env w) = (sel, e1) ∧
    ((sel = EXIT_THREAD ∧
      inWorkerThread w =
      (false, mkWorld d (heap w) e1
                (trace w ++ [Ev_Select (-1) (1000000 ÷ mEmulatedFPS) EXIT_THREAD])))
     ∨
     (sel ≠ EXIT_THREAD ∧
      ∃ res written e2,
        queryFrame (mCurrentFrame (mFrame d)) (mPreviewFrame d)
                   (mFrameBufferSize (mFrame d))
                   (size_t_of_int (int_mul (mTotalPixels (mFrame d)) 4))
                   (mWhiteBalanceScale d).1.1 (mWhiteBalanceScale d).1.2
                   (mWhiteBalanceScale d).2 (mExposureCompensation d) e1
        = ((res, written), e2) ∧
        ((res = NO_ERROR ∧
          ∃ now e3,
            systemTime SYSTEM_TIME_MONOTONIC e2 = (now, e3) ∧
            inWorkerThread w =
            (true, mkWorld (set_mCurFrameTimestamp now d)
                     (write_through (mPreviewFrame d) written (heap w)) e3
                     (trace w ++
                      [Ev_Select (-1) (1000000 ÷ mEmulatedFPS) sel;
                       Ev_queryFrame
                         (mCurrentFrame (mFrame d)) (mPreviewFrame d)
                         (mFrameBufferSize (mFrame d))
                         (size_t_of_int (int_mul (mTotalPixels (mFrame d)) 4))
                         (mWhiteBalanceScale d).1.1 (mWhiteBalanceScale d).1.2
                         (mWhiteBalanceScale d).2 (mExposureCompensation d)
                         NO_ERROR;
                       Ev_systemTime SYSTEM_TIME_MONOTONIC now;
                       Ev_onNextFrameAvailable (mCurrentFrame (mFrame d)) now])))
         ∨
         (res ≠ NO_ERROR ∧
          inWorkerThread w =
          (false, mkWorld d
                    (write_through (mPreviewFrame d) written (heap w)) e2
                    (trace w ++
                     [Ev_Select (-1) (1000000 ÷ mEmulatedFPS) sel;
                      Ev_queryFrame
                        (mCurrentFrame (mFrame d)) (mPreviewFrame d)
                        (mFrameBufferSize (mFrame d))
                        (size_t_of_int (int_mul (mTotalPixels (mFrame d)) 4))
                        (mWhiteBalanceScale d).1.1 (mWhiteBalanceScale d).1.2
                        (mWhiteBalanceScale d).2 (mExposureCompensation d)
                        res;
                      Ev_onCameraDeviceError CAMERA_ERROR_SERVER_DIED])))))).
Proof. exact (inWorkerThread_run w). Qed.


(** C8.  [getCurrentPreviewFrame]: with a preview buffer, the first
    [mTotalPixels * 4] bytes of the destination become those of the buffer,
    the rest of the destination is untouched, and the result is 0; without
    one, the call is the base class's call, and its result and effect are the
    base's. *)
Theorem getCurrentPreviewFrame_copies_or_delegates
    (buffer : list Byte.byte) (w : World Env) :
  (∀ (a : addr) (frame : list Byte.byte),
     let n := mTotalPixels (mFrame (dev w)) in
     mPreviewFrame (dev w) = Some a →
     heap w !! a = Some frame →
     0 ≤ n → n * 4 < 2 ^ 31 →
     n * 4 ≤ Z.of_nat (length frame) →
     n * 4 ≤ Z.of_nat (length buffer) →
     ∃ out,
       getCurrentPreviewFrame buffer w =
       ((0, out),
        mkWorld (dev w) (heap w) (env w) (trace w ++ [Ev_memcpy a (n * 4)])) ∧
       length out = length buffer ∧
       take (Z.to_nat (n * 4)) out = take (Z.to_nat (n * 4)) frame ∧
       drop (Z.to_nat (n * 4)) out = drop (Z.to_nat (n * 4)) buffer) ∧
  (mPreviewFrame (dev w) = None →
   let base := base_getCurrentPreviewFrame
                 (mState (dev w)) (mFrame (dev w)) buffer (env w) in
   getCurrentPreviewFrame buffer w =
   EmulatedCameraDevice_getCurrentPreviewFrame buffer w ∧
   getCurrentPreviewFrame buffer w =
   (fst base,
    mkWorld (dev w) (heap w) (snd base)
      (trace w ++ [Ev_base_getCurrentPreviewFrame (fst (fst base))]))).
Proof.
  split.
  - intros a frame n Hp Hh H0 Hlt Hf Hb.
    rewrite (getCurrentPreviewFrame_Some _ _ _ Hp), Hh. simpl.
    fold n. rewrite (size_of_preview n H0 Hlt).
    eexists. split; [reflexivity |].
    apply memcpy_spec; lia.
  - intros Hp base.
    rewrite (getCurrentPreviewFrame_None _ _ Hp).
    split; [done | apply base_getCurrentPreviewFrame_run].
Qed.


(** C10.  A device that is Started has a non-null preview pointer to a live
    array, and the frame pull of a pass of the acquisition loop made in that
    state is given that pointer. *)
Theorem started_has_preview_buffer (w : World Env) :
  reachable w →
  mState (dev w) = ECDS_STARTED →
  ∃ a : addr,
    mPreviewFrame (dev w) = Some a ∧
    is_Some (heap w !! a) ∧
    ∀ (e : Event) (p : ptr),
      e ∈ drop (length (trace w)) (trace (snd (inWorkerThread w))) →
      pull_pointer e = Some p →
      p = Some a.
Proof.
  intros Hreach Hst.
  destruct (reachable_Inv w Hreach) as [Hs Hp].
  destruct (Hs Hst) as [a Ha].
  exists a. split; [done |]. split; [by apply Hp |].
  intros e p He Hpp.
  destruct (inWorkerThread_pass w) as (evs & Htr & Hpass & _).
  rewrite Htr, drop_app_length in He.
  rewrite <- Ha. by eapply pass_events_pointer.
Qed.

End Properties.

(** ** Further properties of the member functions *)

(** As [eqb_hyps], through conjunctions of tests. *)
Ltac bool_hyps :=
  eqb_hyps;
  repeat match goal with
         | E : _ && _ = true |- _ => apply andb_true_iff in E as [? ?]
         end;
  eqb_hyps.

Section Further.

Context {Env : Type} `{Collaborators Env}.

Lemma getDeviceInfo_run (w : World Env) :
  (isInitialized (dev w) = false →
   getDeviceInfo w = ((EINVAL, None), w)) ∧
  (isInitialized (dev w) = true →
   getDeviceInfo w =
   ((fst (fst (queryInfo (env w))), Some (snd (fst (queryInfo (env w))))),
    mkWorld (dev w) (heap w) (snd (queryInfo (env w)))
      (trace w ++ [Ev_queryInfo (fst (fst (queryInfo (env w))))]))).
Proof.
  destruct w as [[s f t wb ex p nm] h e tr]; simpl.
  unfold getDeviceInfo, mGenyClient_queryInfo, isInitialized. unfold_monad. simpl.
  destruct (queryInfo e) as [[r info] e'] eqn:Hq.
  destruct s; simpl; rewrite ?Hq; simpl; split; intros Hi;
    try discriminate Hi; reflexivity.
Qed.

Lemma exec_initialized (o : Op) (w : World Env) :
  isInitialized (dev w) = true → isInitialized (dev (snd (exec o w))) = true.
Proof.
  destruct w as [[s f t wb ex p nm] h e tr], o as [[]| | |];
    unfold exec, call; run; done.
Qed.

(** X1.  [getDeviceInfo] on a device that is not initialised returns
    [EINVAL] without calling the remote and leaves the out-parameter
    untouched; on an initialised device it returns the status and the string
    of [queryInfo].  It never changes a field of the object or an array. *)
Theorem getDeviceInfo_outcomes (w : World Env) :
  let q := queryInfo (env w) in
  (isInitialized (dev w) = false →
   getDeviceInfo w = ((EINVAL, None), w)) ∧
  (isInitialized (dev w) = true →
   getDeviceInfo w =
   ((fst (fst q), Some (snd (fst q))),
    mkWorld (dev w) (heap w) (snd q) (trace w ++ [Ev_queryInfo (fst (fst q))]))) ∧
  dev (snd (getDeviceInfo w)) = dev w ∧
  heap (snd (getDeviceInfo w)) = heap w.
Proof.
  destruct (getDeviceInfo_run w) as [Hno Hyes].
  split; [done |]. split; [done |].
  destruct (isInitialized (dev w)); [rewrite Hyes | rewrite Hno]; done.
Qed.

(** X2.  A device that is initialised stays initialised through every entry
    point, so the guard of [getDeviceInfo] (and of [connectDevice]) never
    fails again: the status of [getDeviceInfo] is then the remote's. *)
Theorem initialized_forever (os : list Op) (w : World Env) :
  isInitialized (dev w) = true →
  isInitialized (dev (snd (execs os w))) = true ∧
  fst (fst (getDeviceInfo (snd (execs os w)))) =
  fst (fst (queryInfo (env (snd (execs os w))))).
Proof.
  intros Hinit.
  assert (Hlater : isInitialized (dev (snd (execs os w))) = true).
  { revert w Hinit. induction os as [|o os IH]; intros w Hinit; [done |].
    rewrite execs_cons. by apply IH, exec_initialized. }
  split; [done |].
  by rewrite (proj2 (getDeviceInfo_run _) Hlater).
Qed.

(** X3.  The three outcomes of [Initialize]: [connectClient] failed and
    nothing else was called; both steps succeeded and [mDeviceName] is the
    name given; or the base initialisation failed, the session just opened
    was closed again with [queryDisconnect] (whose own result is dropped),
    and the base's error is returned with the object unchanged. *)
Theorem Initialize_outcomes (device_name : string) (port : Z)
    (w w' : World Env) (r : status_t) :
  Initialize device_name port w = (r, w') →
  heap w' = heap w ∧
  ((r ≠ NO_ERROR ∧ dev w' = dev w ∧
    trace w' = trace w ++ [Ev_connectClient port r])
   ∨
   (r = NO_ERROR ∧
    mDeviceName (dev w') = device_name ∧
    mPreviewFrame (dev w') = mPreviewFrame (dev w) ∧
    mFrame (dev w') = mFrame (dev w) ∧
    trace w' = trace w ++ [Ev_connectClient port NO_ERROR;
                           Ev_base_Initialize NO_ERROR])
   ∨
   (r ≠ NO_ERROR ∧ dev w' = dev w ∧
    ∃ rd, trace w' = trace w ++ [Ev_connectClient port NO_ERROR;
                                 Ev_base_Initialize r;
                                 Ev_queryDisconnect rd])).
Proof.
  destruct w as [[s f t wb ex p nm] h e tr]; simpl. intros Hrun.
  run; bool_hyps; try congruence.
  all: (split; [done |]); rewrite <- ?app_assoc; simpl.
  all: first
    [ left; done
    | right; left; repeat split; congruence
    | right; right; repeat split; try done; eexists;
      match goal with E : _ = NO_ERROR |- _ => rewrite E end; done ].
Qed.


Lemma startDevice_run (width height pix_fmt : Z) (w w' : World Env) (r : status_t) :
  mState (dev w) = ECDS_CONNECTED →
  startDevice width height pix_fmt w = (r, w') →
  fst (fst (commonStartDevice width height pix_fmt (mFrame (dev w)) (env w)))
    = NO_ERROR →
  let f' := snd (fst (commonStartDevice width height pix_fmt
                        (mFrame (dev w)) (env w))) in
  mFrame (dev w') = f' ∧
  ((r = ENOMEM ∧ mPreviewFrame (dev w') = None ∧ heap w' = heap w ∧
    mState (dev w') = ECDS_CONNECTED)
   ∨
   (∃ garbage,
      heap w' = <[fresh (dom (heap w)) :=
                    resize (Z.to_nat (4 * mTotalPixels f')) Byte.x00 garbage]>
                  (heap w) ∧
      mPreviewFrame (dev w') = Some (fresh (dom (heap w))) ∧
      mState (dev w') = (if r =? NO_ERROR then ECDS_STARTED else ECDS_CONNECTED) ∧
      trace w' = trace w ++
        [Ev_commonStartDevice width height pix_fmt NO_ERROR;
         Ev_new (mTotalPixels f') (Some (fresh (dom (heap w))));
         Ev_queryStart (mPixelFormat f') (mFrameWidth f') (mFrameHeight f') r])).
Proof.
  destruct w as [[s f t wb ex p nm] h e tr]; simpl. intros -> Hrun Hbase.
  run; bool_hyps; simpl in *; try congruence.
  all: (split; [done |]).
  all: first
    [ left; done
    | right; eexists; repeat split; rewrite <- ?app_assoc; simpl;
      rewrite ?Hbase; try done;
      match goal with E : (_ =? _) = _ |- _ => by rewrite E
                    | E : ?r = NO_ERROR |- _ => by rewrite E end ].
Qed.

(** X5.  A Start that succeeds on a Connected device: the geometry is the one
    [commonStartDevice] computed, [mPreviewFrame] points to a new array of
    [4 * mTotalPixels] bytes, every other array is as before, and the calls
    were made in this order: [commonStartDevice], the allocation, then
    [queryStart] with the pixel format, width and height of the new
    geometry. *)
Theorem startDevice_success_outcome
    (width height pix_fmt : Z) (w w' : World Env) :
  mState (dev w) = ECDS_CONNECTED →
  startDevice width height pix_fmt w = (NO_ERROR, w') →
  let f' := snd (fst (commonStartDevice width height pix_fmt
                        (mFrame (dev w)) (env w))) in
  mState (dev w') = ECDS_STARTED ∧
  mFrame (dev w') = f' ∧
  ∃ (a : addr) (bytes : list Byte.byte),
    heap w !! a = None ∧
    mPreviewFrame (dev w') = Some a ∧
    heap w' !! a = Some bytes ∧
    length bytes = Z.to_nat (4 * mTotalPixels f') ∧
    (∀ b, b ≠ a → heap w' !! b = heap w !! b) ∧
    trace w' = trace w ++
      [Ev_commonStartDevice width height pix_fmt NO_ERROR;
       Ev_new (mTotalPixels f') (Some a);
       Ev_queryStart (mPixelFormat f') (mFrameWidth f') (mFrameHeight f')
                     NO_ERROR].
Proof.
  intros Hs Hrun f'.
  assert (Hbase : fst (fst (commonStartDevice width height pix_fmt
                              (mFrame (dev w)) (env w))) = NO_ERROR).
  { destruct w as [[s f t wb ex p nm] h e tr]; simpl in *. subst s.
    run; bool_hyps; simpl in *; congruence. }
  destruct (startDevice_run _ _ _ _ _ _ Hs Hrun Hbase) as [Hf [Hno|Hyes]].
  { destruct Hno as (Hr & _). discriminate Hr. }
  destruct Hyes as (garbage & Hh & Hp & Hst & Htr).
  split; [done |]. split; [done |].
  exists (fresh (dom (heap w))). eexists.
  split; [apply not_elem_of_dom, is_fresh |]. split; [done |].
  rewrite Hh. split; [apply lookup_insert_eq |].
  split; [apply length_resize |].
  split; [| done].
  intros b Hb. by rewrite lookup_insert_ne.
Qed.

(** X6.  A Start made while [mPreviewFrame] still holds an array (as it
    does after a Stop) overwrites the pointer without releasing that array:
    once the call reaches the allocation, the old array is still allocated
    with its contents, the object no longer points to it, and the destructor
    does not release it either. *)
Theorem startDevice_leaks_previous_array
    (width height pix_fmt : Z) (w w' : World Env) (r : status_t)
    (a : addr) (bytes : list Byte.byte) :
  mState (dev w) = ECDS_CONNECTED →
  mPreviewFrame (dev w) = Some a →
  heap w !! a = Some bytes →
  startDevice width height pix_fmt w = (r, w') →
  fst (fst (commonStartDevice width height pix_fmt (mFrame (dev w)) (env w)))
    = NO_ERROR →
  mPreviewFrame (dev w') ≠ Some a ∧
  heap w' !! a = Some bytes ∧
  heap (snd (destructor w')) !! a = Some bytes.
Proof.
  intros Hs Hp Hh Hrun Hbase.
  assert (Hfresh : fresh (dom (heap w)) ≠ a).
  { intros <-. apply (is_fresh (dom (heap w))), elem_of_dom. eauto. }
  destruct (startDevice_run _ _ _ _ _ _ Hs Hrun Hbase) as [_ [Hno|Hyes]].
  - destruct Hno as (_ & Hp' & Hh' & _).
    split; [by rewrite Hp' |]. split; [by rewrite Hh' |].
    destruct w' as [[s' f' t' wb' ex' p' nm'] h' e' tr']; simpl in *.
    subst p' h'. done.
  - destruct Hyes as (garbage & Hh' & Hp' & _).
    split; [rewrite Hp'; congruence |].
    assert (Ha : heap w' !! a = Some bytes)
      by (rewrite Hh', lookup_insert_ne; done).
    split; [done |].
    rewrite (destructor_releases _ _ Hp'). simpl.
    by rewrite lookup_delete_ne.
Qed.

Lemma write_through_size (p : ptr) (written : list Byte.byte) (h : Heap) :
  size (write_through p written h) = size h.
Proof.
  unfold write_through. destruct p as [a|]; [| done].
  destruct (h !! a) eqn:Ha; [| done].
  apply map_size_insert_Some. eauto.
Qed.

Lemma count_app (f : Event → bool) (evs1 evs2 : list Event) :
  count f (evs1 ++ evs2) = (count f evs1 + count f evs2)%nat.
Proof. unfold count. by rewrite List.filter_app, length_app. Qed.

Lemma exec_live_arrays (o : Op) (w : World Env) :
  ∃ evs, trace (snd (exec o w)) = trace w ++ evs ∧
         size (heap (snd (exec o w))) =
         (size (heap w) + count is_new_success evs)%nat.
Proof.
  destruct w as [[s f t wb ex p nm] h e tr], o as [[]| | |]; unfold exec, call.
  all: run; simpl; rewrite <- ?app_assoc; eexists;
    (split; [ first [ reflexivity | symmetry; apply app_nil_r ] |]).
  all: unfold count; simpl; rewrite ?write_through_size; try lia.
  all: rewrite map_size_insert_None by apply not_elem_of_dom, is_fresh; lia.
Qed.

(** X7.  No entry point releases an array, so the number of live arrays only
    grows: over any sequence of entry points it grows by the number of
    allocations that succeeded, one for every Start that got that far. *)
Theorem live_arrays_only_grow (os : list Op) (w : World Env) :
  ∃ evs, trace (snd (execs os w)) = trace w ++ evs ∧
         Forall (λ e, is_delete e = false) evs ∧
         size (heap (snd (execs os w))) =
         (size (heap w) + count is_new_success evs)%nat.
Proof.
  revert w. induction os as [|o os IH]; intros w.
  - exists []. rewrite app_nil_r. simpl. split; [done |]. split; [done |].
    unfold count. simpl. lia.
  - rewrite execs_cons.
    destruct (IH (snd (exec o w))) as (evs2 & -> & Hd2 & ->).
    destruct (exec_live_arrays o w) as (evs1 & Htr & ->).
    destruct (exec_no_delete o w) as (evs1' & Htr' & Hd1).
    rewrite Htr in Htr'. apply app_inv_head in Htr' as <-.
    exists (evs1 ++ evs2). rewrite Htr, app_assoc, count_app.
    split; [done |]. split; [by apply Forall_app | lia].
Qed.

Lemma exec_keeps_pointer (o : Op) (w : World Env) :
  is_Op_Start o = false →
  mPreviewFrame (dev (snd (exec o w))) = mPreviewFrame (dev w).
Proof.
  destruct w as [[s f t wb ex p nm] h e tr], o as [[]| | |]; unfold exec, call;
    intros Ho; try discriminate Ho.
  all: run; done.
Qed.

(** X8.  The constructor leaves [mPreviewFrame] null and only Start assigns
    it: as long as no Start is attempted the pointer stays null, and
    [getCurrentPreviewFrame] is the base class's call. *)
Theorem no_preview_before_Start (os : list Op) (w : World Env) :
  mPreviewFrame (dev w) = None →
  forallb (λ o, negb (is_Op_Start o)) os = true →
  mPreviewFrame (dev (snd (execs os w))) = None ∧
  ∀ buffer,
    getCurrentPreviewFrame buffer (snd (execs os w)) =
    EmulatedCameraDevice_getCurrentPreviewFrame buffer (snd (execs os w)).
Proof.
  intros Hp Hos.
  assert (Hlater : mPreviewFrame (dev (snd (execs os w))) = None).
  { revert w Hp Hos. induction os as [|o os IH]; intros w Hp Hos; [done |].
    simpl in Hos. apply andb_prop in Hos as [Ho Hos].
    rewrite execs_cons. apply IH; [| done].
    rewrite exec_keeps_pointer; [done |]. by apply negb_true_iff. }
  split; [done |]. intros buffer. by apply getCurrentPreviewFrame_None.
Qed.

Lemma exec_notifications (o : Op) (w : World Env) :
  ∃ evs, trace (snd (exec o w)) = trace w ++ evs ∧
         count is_onCameraDeviceError evs = count is_pull_failure evs ∧
         count is_onNextFrameAvailable evs = count is_pull_success evs ∧
         Forall (λ err, err = CAMERA_ERROR_SERVER_DIED) (error_codes evs) ∧
         mCurFrameTimestamp (dev (snd (exec o w))) =
         default (mCurFrameTimestamp (dev w)) (last (frame_timestamps evs)).
Proof.
  destruct w as [[s f t wb ex p nm] h e tr], o as [[]| | |]; unfold exec, call.
  all: run; simpl; rewrite <- ?app_assoc; eexists;
    (split; [ first [ reflexivity | symmetry; apply app_nil_r ] |]).
  all: unfold count; simpl;
    repeat match goal with E : (_ =? _) = _ |- _ => rewrite E end; simpl.
  all: repeat split; try done; by repeat constructor.
Qed.

(** X9.  In the trace of any sequence of entry points there is one
    [onCameraDeviceError] for every frame pull that failed and one
    [onNextFrameAvailable] for every frame pull that succeeded, the error
    code is always [CAMERA_ERROR_SERVER_DIED], and [mCurFrameTimestamp] is the
    timestamp of the last frame notified (or unchanged when none was). *)
Theorem notifications_match_pulls (os : list Op) (w : World Env) :
  ∃ evs, trace (snd (execs os w)) = trace w ++ evs ∧
         count is_onCameraDeviceError evs = count is_pull_failure evs ∧
         count is_onNextFrameAvailable evs = count is_pull_success evs ∧
         Forall (λ err, err = CAMERA_ERROR_SERVER_DIED) (error_codes evs) ∧
         mCurFrameTimestamp (dev (snd (execs os w))) =
         default (mCurFrameTimestamp (dev w)) (last (frame_timestamps evs)).
Proof.
  revert w. induction os as [|o os IH]; intros w.
  - exists []. rewrite app_nil_r. done.
  - rewrite execs_cons.
    destruct (IH (snd (exec o w))) as (evs2 & -> & He2 & Hf2 & Hc2 & ->).
    destruct (exec_notifications o w) as (evs1 & -> & He1 & Hf1 & Hc1 & ->).
    exists (evs1 ++ evs2). rewrite app_assoc, !count_app.
    split; [done |]. split; [lia |]. split; [lia |].
    unfold error_codes, frame_timestamps in *. rewrite !omap_app.
    split; [by apply Forall_app_2 |].
    rewrite last_app. by destruct (last (omap _ evs2)), (last (omap _ evs1)).
Qed.

(** X10.  Connect and then Disconnect, both answered with success by the
    remote, bring an Initialized device back to exactly the fields it had;
    the remote was asked to connect and then to disconnect, and nothing else
    was called. *)
Theorem connect_disconnect_round_trip (w w1 w2 : World Env) :
  mState (dev w) = ECDS_INITIALIZED →
  connectDevice w = (NO_ERROR, w1) →
  disconnectDevice w1 = (NO_ERROR, w2) →
  mState (dev w1) = ECDS_CONNECTED ∧
  dev w2 = dev w ∧ heap w2 = heap w ∧
  trace w2 = trace w ++ [Ev_queryConnect NO_ERROR; Ev_queryDisconnect NO_ERROR].
Proof.
  destruct w as [[s f t wb ex p nm] h e tr]; simpl. intros -> Hc Hd.
  run; bool_hyps; try congruence.
  rewrite <- ?app_assoc. done.
Qed.

(** X11.  What a pass of the worker thread pulled is what
    [getCurrentPreviewFrame] hands out next: when the pull wrote the whole
    preview array, the copy into a destination of that size is exactly the
    bytes written. *)
Theorem pulled_frame_is_previewed (w : World Env) (a : addr)
    (old written buffer : list Byte.byte)
    (sel : SelectRes) (e1 e2 : Env) (res : status_t) :
  let d := dev w in
  let n := mTotalPixels (mFrame d) in
  mPreviewFrame d = Some a →
  heap w !! a = Some old →
  Select (-1) (1000000 ÷ mEmulatedFPS) (env w) = (sel, e1) →
  sel ≠ EXIT_THREAD →
  queryFrame (mCurrentFrame (mFrame d)) (mPreviewFrame d)
             (mFrameBufferSize (mFrame d))
             (size_t_of_int (int_mul n 4))
             (mWhiteBalanceScale d).1.1 (mWhiteBalanceScale d).1.2
             (mWhiteBalanceScale d).2 (mExposureCompensation d) e1
  = ((res, written), e2) →
  0 ≤ n → n * 4 < 2 ^ 31 →
  length old = Z.to_nat (n * 4) →
  length written = Z.to_nat (n * 4) →
  length buffer = Z.to_nat (n * 4) →
  heap (snd (inWorkerThread w)) !! a = Some written ∧
  fst (getCurrentPreviewFrame buffer (snd (inWorkerThread w))) = (0, written).
Proof.
  intros d n Hp Hh Hsel Hne Hq H0 Hlt Hold Hwr Hbuf.
  assert (Hover : overwrite old written = written).
  { unfold overwrite. rewrite Hold, <- Hwr. apply take_app_length. }
  assert (Hheap : write_through (Some a) written (heap w) !! a = Some written).
  { unfold write_through. rewrite Hh, Hover. apply lookup_insert_eq. }
  assert (Hcopy : memcpy buffer written (Z.to_nat (n * 4)) = written).
  { unfold memcpy. rewrite take_ge, drop_ge by lia. apply app_nil_r. }
  destruct (inWorkerThread_run w) as (sel' & e1' & Hsel' & Hcases).
  unfold frame_interval in *. rewrite Hsel in Hsel'.
  injection Hsel' as <- <-.
  destruct Hcases as [[Hexit _] | [_ Hpull]]; [done |].
  destruct Hpull as (res' & written' & e2' & Hq' & Hres).
  fold d in Hq'. fold n in Hq'. rewrite Hq in Hq'.
  injection Hq' as <- <- <-.
  fold d in Hres. rewrite Hp in Hres.
  assert (Hw' : heap (snd (inWorkerThread w)) !! a = Some written ∧
                mPreviewFrame (dev (snd (inWorkerThread w))) = Some a ∧
                mTotalPixels (mFrame (dev (snd (inWorkerThread w)))) = n).
  { destruct Hres as [(_ & now & e3 & _ & ->) | (_ & ->)]; simpl;
      by destruct (dev w). }
  destruct Hw' as (Hh' & Hp' & Hn').
  split; [done |].
  rewrite (getCurrentPreviewFrame_Some _ _ _ Hp'), Hh', Hn'. simpl.
  by rewrite (size_of_preview n H0 Hlt), Hcopy.
Qed.

(** X12.  Stop never releases the preview array, whatever the device holds:
    the pointer and every array are the same after the call as before it,
    also when the pointer is null, where [delete[]] of a null pointer does
    nothing.  On a device that is not Started it returns success and calls
    nothing; on a Started device it asks [queryStop] first, returns its error
    with the object unchanged when that fails, and only when it succeeds
    calls [commonStopDevice], takes its geometry and moves to Connected. *)
Theorem stopDevice_never_releases (w : World Env) :
  mPreviewFrame (dev (snd (stopDevice w))) = mPreviewFrame (dev w) ∧
  heap (snd (stopDevice w)) = heap w ∧
  (mState (dev w) ≠ ECDS_STARTED → stopDevice w = (NO_ERROR, w)) ∧
  (mState (dev w) = ECDS_STARTED →
   let q := queryStop (env w) in
   let b := commonStopDevice (mFrame (dev w)) (snd q) in
   (fst q ≠ NO_ERROR →
    stopDevice w =
    (fst q, mkWorld (dev w) (heap w) (snd q) (trace w ++ [Ev_queryStop (fst q)]))) ∧
   (fst q = NO_ERROR →
    stopDevice w =
    (NO_ERROR,
     mkWorld (set_mState ECDS_CONNECTED (set_mFrame (fst b) (dev w)))
       (heap w) (snd b)
       (trace w ++ [Ev_queryStop NO_ERROR; Ev_commonStopDevice])))).
Proof.
  destruct (exec_quiet (Op_call Call_Stop) w eq_refl) as [Hh Hp].
  assert (Hsnd : snd (exec (Op_call Call_Stop) w) = snd (stopDevice w)).
  { unfold exec, call, bind, ret. by destruct (stopDevice w). }
  rewrite Hsnd in Hh, Hp.
  split; [done |]. split; [done |]. exact (stopDevice_run w).
Qed.

End Further.

(** ** The properties on closed runs *)

Lemma started_world_reachable (rest : Script) : reachable (started_world rest).
Proof.
  exists (script_world ([0; 0; 0; 0; 0; 0] ++ rest)), started_ops.
  split; [split; reflexivity |].
  unfold started_world. reflexivity.
Qed.

(** C1.  The failing run: a Started device with its preview array at address
    1; the remote stop succeeds and Stop returns success with the device
    Connected, yet [mPreviewFrame] still holds address 1, the array is still
    allocated, and nothing was released. *)
Theorem stopDevice_keeps_preview_frame :
  let w := started_world [0] in
  let w' := snd (stopDevice w) in
  mState (dev w) = ECDS_STARTED ∧
  mPreviewFrame (dev w) = Some 1%positive ∧
  fst (stopDevice w) = NO_ERROR ∧
  mState (dev w') = ECDS_CONNECTED ∧
  mPreviewFrame (dev w') = Some 1%positive ∧
  heap w' !! 1%positive = Some (replicate 8 Byte.x00) ∧
  trace w' = trace w ++ [Ev_queryStop NO_ERROR; Ev_commonStopDevice].
Proof. vm_compute. repeat split. Qed.



(** C3, as stated, fails: Start fails on the remote open-capture (answer 5);
    the device stays Connected, but the array allocated at address 1 is still
    there and still in [mPreviewFrame], and the geometry is the one
    [commonStartDevice] computed. *)
Lemma startDevice_failure_not_rolled_back :
  let w := connected_world [0; 0; 5] in
  let w' := snd (startDevice 2 1 7 w) in
  fst (startDevice 2 1 7 w) = 5 ∧
  mState (dev w) = ECDS_CONNECTED ∧ mState (dev w') = ECDS_CONNECTED ∧
  mPreviewFrame (dev w) = None ∧ mPreviewFrame (dev w') = Some 1%positive ∧
  heap w !! 1%positive = None ∧
  heap w' !! 1%positive = Some (replicate 8 Byte.x00) ∧
  mFrame (dev w) = mkFrameInfo 0 0 0 0 0 0 ∧
  mFrame (dev w') = mkFrameInfo 2 1 7 2 8 4096 ∧
  dev w' ≠ dev w ∧
  trace w' = trace w ++ [Ev_commonStartDevice 2 1 7 0; Ev_new 2 (Some 1%positive);
                         Ev_queryStart 7 2 1 5].
Proof. vm_compute. repeat split. discriminate. Qed.

Lemma startDevice_failure_keeps_side_effects_witness :
  let w := connected_world [0; 0; 5] in
  mState (dev w) = ECDS_CONNECTED ∧
  startDevice 2 1 7 w = (5, snd (startDevice 2 1 7 w)) ∧
  5 ≠ NO_ERROR ∧
  mState (dev (snd (startDevice 2 1 7 w))) = ECDS_CONNECTED.
Proof.
  assert (Hrun : startDevice 2 1 7 (connected_world [0; 0; 5]) =
                 (5, snd (startDevice 2 1 7 (connected_world [0; 0; 5]))))
    by (vm_compute; reflexivity).
  assert (Hr : 5 ≠ NO_ERROR) by discriminate.
  split; [reflexivity |]. split; [exact Hrun |]. split; [exact Hr |].
  exact (proj1 (startDevice_failure_keeps_side_effects
                  2 1 7 (connected_world [0; 0; 5]) _ 5 eq_refl Hrun Hr)).
Defined.

Lemma startDevice_twice_witness :
  startDevice 2 1 7 (connected_world [0; 0; 0]) = (NO_ERROR, started_world []) ∧
  mState (dev (started_world [])) = ECDS_STARTED ∧
  startDevice 640 480 7 (started_world []) = (NO_ERROR, started_world []).
Proof.
  assert (Hfirst : startDevice 2 1 7 (connected_world [0; 0; 0]) =
                   (NO_ERROR, started_world [])) by (vm_compute; reflexivity).
  destruct (startDevice_twice 640 480 7 (started_world [])) as [Hnoop Hstarted].
  split; [exact Hfirst |].
  split; [exact (Hstarted _ _ _ _ Hfirst) |].
  exact (Hnoop (Hstarted _ _ _ _ Hfirst)).
Defined.

Lemma pull_failure_ends_loop_witness :
  trace (snd (threadLoop 5 failing_session)) =
    trace failing_session ++ failing_session_events ∧
  Exists (λ e, is_pull_failure e = true) failing_session_events ∧
  fst (threadLoop 5 failing_session) = true ∧
  mState (dev (snd (threadLoop 5 failing_session))) = ECDS_STARTED.
Proof.
  assert (Htr : trace (snd (threadLoop 5 failing_session)) =
                trace failing_session ++ failing_session_events)
    by (vm_compute; reflexivity).
  assert (Hfail : Exists (λ e, is_pull_failure e = true) failing_session_events).
  { unfold failing_session_events. do 5 apply Exists_cons_tl.
    apply Exists_cons_hd. reflexivity. }
  destruct (pull_failure_ends_loop 5 failing_session _ Htr Hfail)
    as (Hexit & _ & _ & Hstate).
  split; [exact Htr |]. split; [exact Hfail |]. split; [exact Hexit |].
  rewrite Hstate. reflexivity.
Defined.



Lemma getCurrentPreviewFrame_copies_or_delegates_witness :
  let buffer := replicate 8 Byte.xff in
  let w := started_world [] in
  (mPreviewFrame (dev w) = Some 1%positive ∧
   heap w !! 1%positive = Some (replicate 8 Byte.x00) ∧
   mTotalPixels (mFrame (dev w)) = 2 ∧
   ∃ out, fst (getCurrentPreviewFrame buffer w) = (0, out) ∧
          take 8 out = replicate 8 Byte.x00) ∧
  (mPreviewFrame (dev (connected_world [33])) = None ∧
   fst (getCurrentPreviewFrame buffer (connected_world [33])) = (33, buffer)).
Proof.
  split.
  - destruct (proj1 (getCurrentPreviewFrame_copies_or_delegates
                       (replicate 8 Byte.xff) (started_world []))
                1%positive (replicate 8 Byte.x00))
      as (out & Hrun & _ & Htake & _);
      [reflexivity | reflexivity | vm_compute; discriminate | reflexivity
      | vm_compute; discriminate | vm_compute; discriminate |].
    split; [reflexivity |]. split; [reflexivity |]. split; [reflexivity |].
    exists out. split; [by rewrite Hrun | exact Htake].
  - split; [reflexivity |].
    destruct (proj2 (getCurrentPreviewFrame_copies_or_delegates
                       (replicate 8 Byte.xff) (connected_world [33])) eq_refl)
      as [_ ->].
    reflexivity.
Defined.

Lemma filmed_world_reachable : reachable filmed_world.
Proof.
  exists (script_world filmed_script), filmed_ops.
  split; [split; reflexivity |]. unfold filmed_world. reflexivity.
Qed.

Lemma filmed_world_keeping_reachable :
  @reachable Script keeping_env filmed_world_keeping.
Proof.
  exists (script_world filmed_script), filmed_ops.
  split; [split; reflexivity |]. unfold filmed_world_keeping. reflexivity.
Qed.



Lemma started_has_preview_buffer_witness :
  reachable (started_world []) ∧
  mState (dev (started_world [])) = ECDS_STARTED ∧
  ∃ a, mPreviewFrame (dev (started_world [])) = Some a ∧
       is_Some (heap (started_world []) !! a).
Proof.
  destruct (started_has_preview_buffer (started_world [])
              (started_world_reachable []) eq_refl) as (a & Ha & Hh & _).
  split; [apply started_world_reachable |]. split; [reflexivity |].
  exists a. split; [exact Ha | exact Hh].
Defined.

(** ** The further properties on closed runs *)

Lemma initialized_forever_witness :
  isInitialized (dev (initialized_world [])) = true ∧
  isInitialized
    (dev (snd (execs [Op_call Call_Connect; Op_call Call_Disconnect;
                      Op_getDeviceInfo] (initialized_world [])))) = true.
Proof.
  split; [reflexivity |].
  exact (proj1 (initialized_forever
                  [Op_call Call_Connect; Op_call Call_Disconnect; Op_getDeviceInfo]
                  (initialized_world []) eq_refl)).
Defined.

Lemma Initialize_outcomes_witness :
  let w := script_world [0; 7; 0] in
  Initialize "cam" 5555 w = (7, snd (Initialize "cam" 5555 w)) ∧
  heap (snd (Initialize "cam" 5555 w)) = heap w.
Proof.
  assert (Hrun : Initialize "cam" 5555 (script_world [0; 7; 0]) =
                 (7, snd (Initialize "cam" 5555 (script_world [0; 7; 0]))))
    by (vm_compute; reflexivity).
  split; [exact Hrun |].
  exact (proj1 (Initialize_outcomes _ _ _ _ _ Hrun)).
Defined.


Lemma startDevice_success_outcome_witness :
  mState (dev (connected_world [0; 0; 0])) = ECDS_CONNECTED ∧
  startDevice 2 1 7 (connected_world [0; 0; 0]) = (NO_ERROR, started_world []) ∧
  mState (dev (started_world [])) = ECDS_STARTED ∧
  mFrame (dev (started_world [])) = mkFrameInfo 2 1 7 2 8 4096.
Proof.
  assert (Hrun : startDevice 2 1 7 (connected_world [0; 0; 0]) =
                 (NO_ERROR, started_world [])) by (vm_compute; reflexivity).
  destruct (startDevice_success_outcome 2 1 7 (connected_world [0; 0; 0]) _
              eq_refl Hrun) as (Hst & Hf & _).
  split; [reflexivity |]. split; [exact Hrun |]. split; [exact Hst |].
  rewrite Hf. vm_compute. reflexivity.
Defined.

Lemma startDevice_leaks_previous_array_witness :
  let w := stopped_world [0; 0; 0] in
  let w' := snd (startDevice 4 4 7 w) in
  mState (dev w) = ECDS_CONNECTED ∧
  mPreviewFrame (dev w) = Some 1%positive ∧
  heap w !! 1%positive = Some (replicate 8 Byte.x00) ∧
  startDevice 4 4 7 w = (NO_ERROR, w') ∧
  mPreviewFrame (dev w') ≠ Some 1%positive ∧
  heap w' !! 1%positive = Some (replicate 8 Byte.x00) ∧
  heap (snd (destructor w')) !! 1%positive = Some (replicate 8 Byte.x00).
Proof.
  assert (Hrun : startDevice 4 4 7 (stopped_world [0; 0; 0]) =
                 (NO_ERROR, snd (startDevice 4 4 7 (stopped_world [0; 0; 0]))))
    by (vm_compute; reflexivity).
  assert (Hs : mState (dev (stopped_world [0; 0; 0])) = ECDS_CONNECTED)
    by (vm_compute; reflexivity).
  assert (Hp : mPreviewFrame (dev (stopped_world [0; 0; 0])) = Some 1%positive)
    by (vm_compute; reflexivity).
  assert (Hh : heap (stopped_world [0; 0; 0]) !! 1%positive =
               Some (replicate 8 Byte.x00)) by (vm_compute; reflexivity).
  assert (Hbase : fst (fst (commonStartDevice 4 4 7
                              (mFrame (dev (stopped_world [0; 0; 0])))
                              (env (stopped_world [0; 0; 0])))) = NO_ERROR)
    by (vm_compute; reflexivity).
  split; [exact Hs |]. split; [exact Hp |]. split; [exact Hh |].
  split; [exact Hrun |].
  exact (startDevice_leaks_previous_array 4 4 7 _ _ _ _ _ Hs Hp Hh Hrun Hbase).
Defined.

Lemma no_preview_before_Start_witness :
  let os := [Op_call Call_Disconnect; Op_inWorkerThread; Op_call Call_Stop] in
  mPreviewFrame (dev (connected_world [])) = None ∧
  forallb (λ o, negb (is_Op_Start o)) os = true ∧
  mPreviewFrame (dev (snd (execs os (connected_world [])))) = None.
Proof.
  split; [reflexivity |]. split; [reflexivity |].
  exact (proj1 (no_preview_before_Start
                  [Op_call Call_Disconnect; Op_inWorkerThread; Op_call Call_Stop]
                  (connected_world []) eq_refl eq_refl)).
Defined.

Lemma connect_disconnect_round_trip_witness :
  let w := initialized_world [0; 0] in
  let w1 := snd (connectDevice w) in
  let w2 := snd (disconnectDevice w1) in
  mState (dev w) = ECDS_INITIALIZED ∧
  connectDevice w = (NO_ERROR, w1) ∧
  disconnectDevice w1 = (NO_ERROR, w2) ∧
  dev w2 = dev w.
Proof.
  assert (Hc : connectDevice (initialized_world [0; 0]) =
               (NO_ERROR, snd (connectDevice (initialized_world [0; 0]))))
    by (vm_compute; reflexivity).
  assert (Hd : disconnectDevice (snd (connectDevice (initialized_world [0; 0]))) =
               (NO_ERROR,
                snd (disconnectDevice (snd (connectDevice (initialized_world [0; 0]))))))
    by (vm_compute; reflexivity).
  assert (Hs : mState (dev (initialized_world [0; 0])) = ECDS_INITIALIZED)
    by (vm_compute; reflexivity).
  destruct (connect_disconnect_round_trip _ _ _ Hs Hc Hd) as (_ & Hdev & _).
  split; [exact Hs |]. split; [exact Hc |]. split; [exact Hd | exact Hdev].
Defined.

Lemma pulled_frame_is_previewed_witness :
  let written := replicate 8 Byte.x09 in
  let buffer := replicate 8 Byte.xff in
  mPreviewFrame (dev pulling_session) = Some 1%positive ∧
  heap pulling_session !! 1%positive = Some (replicate 8 Byte.x00) ∧
  Select (-1) (1000000 ÷ mEmulatedFPS) (env pulling_session) =
    (TIMEOUT, [0; 9; 100]) ∧
  heap (snd (inWorkerThread pulling_session)) !! 1%positive = Some written ∧
  fst (getCurrentPreviewFrame buffer (snd (inWorkerThread pulling_session))) =
    (0, written).
Proof.
  assert (Hp : mPreviewFrame (dev pulling_session) = Some 1%positive)
    by (vm_compute; reflexivity).
  assert (Hh : heap pulling_session !! 1%positive = Some (replicate 8 Byte.x00))
    by (vm_compute; reflexivity).
  assert (Hsel : Select (-1) (1000000 ÷ mEmulatedFPS) (env pulling_session) =
                 (TIMEOUT, [0; 9; 100])) by (vm_compute; reflexivity).
  split; [exact Hp |]. split; [exact Hh |]. split; [exact Hsel |].
  apply (pulled_frame_is_previewed pulling_session 1%positive
           (replicate 8 Byte.x00) (replicate 8 Byte.x09) (replicate 8 Byte.xff)
           TIMEOUT [0; 9; 100] [100] 0 Hp Hh Hsel).
  - discriminate.
  - vm_compute. reflexivity.
  - vm_compute. discriminate.
  - vm_compute. reflexivity.
  - vm_compute. reflexivity.
  - vm_compute. reflexivity.
  - vm_compute. reflexivity.
Defined.

Lemma stopDevice_never_releases_witness :
  (mState (dev (connected_world [])) ≠ ECDS_STARTED ∧
   stopDevice (connected_world []) = (NO_ERROR, connected_world [])) ∧
  (let w := started_world [9] in
   let q := queryStop (env w) in
   mState (dev w) = ECDS_STARTED ∧
   fst q ≠ NO_ERROR ∧
   stopDevice w =
   (fst q, mkWorld (dev w) (heap w) (snd q) (trace w ++ [Ev_queryStop (fst q)]))) ∧
  (let w := started_world [0] in
   let q := queryStop (env w) in
   let b := commonStopDevice (mFrame (dev w)) (snd q) in
   mState (dev w) = ECDS_STARTED ∧
   fst q = NO_ERROR ∧
   stopDevice w =
   (NO_ERROR,
    mkWorld (set_mState ECDS_CONNECTED (set_mFrame (fst b) (dev w)))
      (heap w) (snd b)
      (trace w ++ [Ev_queryStop NO_ERROR; Ev_commonStopDevice]))).
Proof.
  split; [| split].
  - assert (Hs : mState (dev (connected_world [])) ≠ ECDS_STARTED)
      by (vm_compute; discriminate).
    destruct (stopDevice_never_releases (connected_world [])) as (_ & _ & Hno & _).
    split; [exact Hs | exact (Hno Hs)].
  - assert (Hq : fst (queryStop (env (started_world [9]))) ≠ NO_ERROR)
      by (vm_compute; discriminate).
    destruct (stopDevice_never_releases (started_world [9])) as (_ & _ & _ & Hst).
    split; [reflexivity |]. split; [exact Hq |].
    exact (proj1 (Hst eq_refl) Hq).
  - assert (Hq : fst (queryStop (env (started_world [0]))) = NO_ERROR)
      by (vm_compute; reflexivity).
    destruct (stopDevice_never_releases (started_world [0])) as (_ & _ & _ & Hst).
    split; [reflexivity |]. split; [exact Hq |].
    exact (proj2 (Hst eq_refl) Hq).
Defined.
